(** * convert_terrorist_csv_for_upload.py: the row conversion loop

    A shallow embedding of the [for row in reader] loop of
    [convert_terrorist_csv] (lines 53 to 89 of the script) and the
    properties of its output rows, counters and warnings.

    Python strings are sequences of Unicode code points, dictionaries are
    finite maps, and the loop body runs in a state and exception monad: the
    state holds what the body mutates (the rows handed to the CSV writer,
    the two counters and the printed warnings), and an exception raised in
    the [try] block is caught by the loop's [except] clause. *)

From Stdlib Require Import ZArith NArith String Ascii List Bool Lia.
From Stdlib Require Import DecimalString.
From stdpp Require Import gmap list fin_maps.

Local Open Scope Z_scope.

(** ** Python values *)

(** A [str] is a list of code points. *)
Abbreviation str := (list N).

(** An ASCII literal of the script, as a [str]. *)
Definition py (s : string) : str :=
  List.map N_of_ascii (list_ascii_of_string s).

(** The cells [csv.DictReader] hands out are strings, or [None] for the
    columns a short line does not reach. *)
Inductive value : Type :=
| PyNone
| PyStr (s : str).

Abbreviation dict := (gmap str value).

Definition value_eqb (a b : value) : bool :=
  match a, b with
  | PyNone, PyNone => true
  | PyStr s, PyStr t => bool_decide (s = t)
  | _, _ => false
  end.

(** Truth value of an object: [None] and [''] are false. *)
Definition truthy (v : value) : bool :=
  match v with
  | PyNone => false
  | PyStr [] => false
  | PyStr (_ :: _) => true
  end.

(** [str(v)], as an f-string renders it. *)
Definition str_of (v : value) : str :=
  match v with
  | PyNone => py "None"
  | PyStr s => s
  end.

(** [repr] of a string free of quotes, backslashes and control characters
    (every key the script indexes with is such a string). *)
Definition repr (s : str) : str := py "'" ++ s ++ py "'".

Inductive exn : Type :=
| KeyError (k : str)
| AttributeError
| ValueError (msg : str)
| ReaderError (msg : str).   (* raised by the reader: csv.Error, UnicodeDecodeError *)

(** [str(e)] *)
Definition exn_str (e : exn) : str :=
  match e with
  | KeyError k => repr k
  | AttributeError => py "'NoneType' object has no attribute 'strip'"
  | ValueError msg => msg
  | ReaderError msg => msg
  end.

(** [sep.join(l)] *)
Fixpoint join (sep : str) (l : list str) : str :=
  match l with
  | [] => []
  | [x] => x
  | x :: l' => x ++ sep ++ join sep l'
  end.

(** ** The interpreter's character tables on ASCII *)

(** [str.isspace] on an ASCII code point: tab to carriage return, the four
    separators 0x1C to 0x1F, and the space. *)
Definition ascii_isspace (c : N) : bool :=
  ((9 <=? c) && (c <=? 13) || (28 <=? c) && (c <=? 32))%N.

(** [\d] on an ASCII code point. *)
Definition ascii_isdigit (c : N) : bool :=
  ((48 <=? c) && (c <=? 57))%N.

(** A character table that has nothing above ASCII. *)
Definition ascii_only (c : N) : bool := false.

(** Lower case of an ASCII letter; other code points are left alone. *)
Definition ascii_lower (c : N) : N :=
  if ((65 <=? c) && (c <=? 90))%N then (c + 32)%N else c.

(** ** The constants of the script *)

Definition sentinel : str := py "Not yet reviewed".
Definition schema_type : str := py "Terrorist Organization".

Definition fieldnames : list str :=
  [ py "organization_name"; py "external_id"; py "schema_type";
    py "description"; py "aliases"; py "published_date";
    py "updated_date"; py "data_source_url" ].

(** The keys the dictionary display of line 59 reads, in evaluation order. *)
Definition source_keys : list str :=
  [ py "name"; py "entity_id"; py "description"; py "aliases";
    py "published_date"; py "updated_date"; py "data_source_url" ].

Definition date_fields : list str := [ py "published_date"; py "updated_date" ].

(** The text before the first placeholder of the warning of line 88:
    U+26A0 U+FE0F, two spaces, U+8DF3 U+8FC7 U+884C, one space. *)
Definition warning_prefix : str :=
  [ 0x26A0; 0xFE0F; 32; 32; 0x8DF3; 0x8FC7; 0x884C; 32 ]%N.

(** ** Regular expressions of the shape the script uses *)

Inductive re_item : Type :=
| Bol                (* ^ *)
| Eol                (* $ *)
| Digits (n : nat)   (* \d{n} *)
| Lit (c : N).       (* a literal character *)

(** [^\d{4}-\d{2}-\d{2}$] *)
Definition date_pattern : list re_item :=
  [ Bol; Digits 4; Lit 45; Digits 2; Lit 45; Digits 2; Eol ].

(** ** State of the loop *)

Record state : Type := State {
  outfile : list (list str);   (* rows given to the CSV writer, header first *)
  converted_rows : Z;
  fixed_dates : Z;
  stdout : list str            (* lines printed by the loop *)
}.

Definition M (A : Type) : Type := state -> (exn + A) * state.

Definition ret {A} (a : A) : M A := fun st => (inr a, st).

Definition raise {A} (e : exn) : M A := fun st => (inl e, st).

Definition bind {A B} (m : M A) (f : A -> M B) : M B :=
  fun st =>
    match m st with
    | (inr a, st') => f a st'
    | (inl e, st') => (inl e, st')
    end.

Notation "x <- m ;; k" := (bind m (fun x => k))
  (at level 100, m at next level, right associativity).
Notation "m ;; k" := (bind m (fun _ => k))
  (at level 100, right associativity).

(** [a or b] and [a and b] used as conditions: [b] is evaluated only when
    [a] does not decide. *)
Definition por (a b : M bool) : M bool :=
  x <- a ;; if x then ret true else b.

Definition pand (a b : M bool) : M bool :=
  x <- a ;; if x then b else ret false.

(** [for x in xs: body], a raise in the body leaving the loop. *)
Fixpoint for_each {A} (body : A -> M unit) (xs : list A) : M unit :=
  match xs with
  | [] => ret tt
  | x :: xs' => body x ;; for_each body xs'
  end.

(** [for x in xs: acc = body(x, acc)] *)
Fixpoint for_fold {A B} (body : A -> B -> M B) (xs : list A) (acc : B) : M B :=
  match xs with
  | [] => ret acc
  | x :: xs' => acc' <- body x acc ;; for_fold body xs' acc'
  end.

(** [d[k]] *)
Definition getitem (d : dict) (k : str) : M value :=
  match d !! k with
  | Some v => ret v
  | None => raise (KeyError k)
  end.

(** [d.get(k, default)] *)
Definition dict_get (d : dict) (k : str) (default : value) : value :=
  match d !! k with
  | Some v => v
  | None => default
  end.

Definition print (line : str) : M unit :=
  fun st => (inr tt, State (outfile st) (converted_rows st) (fixed_dates st)
                           (stdout st ++ [line])).

(** [fixed_dates += 1] *)
Definition incr_fixed_dates : M unit :=
  fun st => (inr tt, State (outfile st) (converted_rows st) (fixed_dates st + 1)
                           (stdout st)).

(** [converted_rows += 1] *)
Definition incr_converted_rows : M unit :=
  fun st => (inr tt, State (outfile st) (converted_rows st + 1) (fixed_dates st)
                           (stdout st)).

(** A cell as the CSV writer renders it: [None] becomes the empty field. *)
Definition render (v : value) : str :=
  match v with
  | PyNone => []
  | PyStr s => s
  end.

(** [rowdict.keys() - fieldnames], the keys a [DictWriter] made without
    [extrasaction] refuses. *)
Definition wrong_fields (rowdict : dict) : list str :=
  List.filter
    (fun k => negb (existsb (fun f => bool_decide (f = k)) fieldnames))
    (List.map fst (map_to_list rowdict)).

(** [writer.writerow(rowdict)]: a [ValueError] when the dictionary has a key
    that is no field name; else one cell per field name, in order, a key the
    dictionary lacks giving the writer's [restval] ['']. *)
Definition writerow (rowdict : dict) : M unit :=
  match wrong_fields rowdict with
  | [] =>
      fun st =>
        let cells :=
          List.map (fun k => render (dict_get rowdict k (PyStr []))) fieldnames in
        (inr tt, State (outfile st ++ [cells]) (converted_rows st)
                       (fixed_dates st) (stdout st))
  | extra =>
      raise (ValueError (py "dict contains fields not in fieldnames: "
                         ++ join (py ", ") (List.map repr extra)))
  end.

(** The cell of column [k] in a written row, as [csv.DictReader] pairs the
    header with the cells when the file is read back (line 98). *)
Fixpoint assoc (ks : list str) (cells : list str) (k : str) : option str :=
  match ks, cells with
  | k' :: ks', c :: cells' => if bool_decide (k' = k) then Some c else assoc ks' cells' k
  | _, _ => None
  end.

Definition csv_field (cells : list str) (k : str) : option str :=
  assoc fieldnames cells k.

(** ** The texts the script prints *)

(** The code points of a UTF-8 text. *)
Fixpoint utf8_decode (bs : list N) : str :=
  match bs with
  | [] => []
  | b :: r =>
      if (b <? 0x80)%N then b :: utf8_decode r
      else if (b <? 0xE0)%N then
        match r with
        | b1 :: r1 => ((b - 0xC0) * 64 + (b1 - 0x80))%N :: utf8_decode r1
        | _ => []
        end
      else if (b <? 0xF0)%N then
        match r with
        | b1 :: b2 :: r2 =>
            ((b - 0xE0) * 4096 + (b1 - 0x80) * 64 + (b2 - 0x80))%N
            :: utf8_decode r2
        | _ => []
        end
      else
        match r with
        | b1 :: b2 :: b3 :: r3 =>
            ((b - 0xF0) * 262144 + (b1 - 0x80) * 4096 + (b2 - 0x80) * 64
             + (b3 - 0x80))%N :: utf8_decode r3
        | _ => []
        end
  end.

(** A literal of the script, written in UTF-8, as a [str]. *)
Definition utf8 (s : string) : str := utf8_decode (py s).

(** [str(n)] of an integer. *)
Definition str_of_int (n : Z) : str := py (NilZero.string_of_int (Z.to_int n)).

Definition input_file : str :=
  py "/Users/kanbei/Code/chainreactions_backend/canadian_listed_terrorist_entities.csv".
Definition output_file : str :=
  py "/Users/kanbei/Code/chainreactions_backend/canadian_terrorist_entities_ready_for_upload.csv".

(** Lines 23-25 and 29. *)
Definition msg_start : str := utf8 "🔧 转换加拿大恐怖实体CSV...".
Definition msg_input : str := utf8 "📥 输入文件: " ++ input_file.
Definition msg_output : str := utf8 "📤 输出文件: " ++ output_file.
Definition msg_missing : str := utf8 "❌ 错误: 找不到输入文件 " ++ input_file.

(** Lines 91-93. *)
Definition msg_done : str := utf8 "✅ 转换完成!".
Definition msg_converted (converted_rows : Z) : str :=
  utf8 "📊 成功转换 " ++ str_of_int converted_rows ++ utf8 " 行".
Definition msg_fixed (fixed_dates : Z) : str :=
  utf8 "🔧 修复日期格式 " ++ str_of_int fixed_dates ++ utf8 " 处".

(** Lines 96 and 102-107; the escape [\n] is the code point 10. *)
Definition msg_preview : str := [10%N] ++ utf8 "📋 转换示例:".
Definition msg_row (i : nat) : str :=
  [10%N] ++ utf8 "--- 第 " ++ str_of_int (Z.of_nat i + 1) ++ utf8 " 行 ---".
Definition msg_name (v : value) : str := utf8 "组织名称: " ++ str_of v.
Definition msg_id (v : value) : str := utf8 "外部ID: " ++ str_of v.
Definition msg_type (v : value) : str := utf8 "类型: " ++ str_of v.
Definition msg_published (v : value) : str := utf8 "发布日期: " ++ str_of v.
Definition msg_updated (v : value) : str := utf8 "更新日期: " ++ str_of v.

(** Lines 109-112 and 117. *)
Definition msg_usage : str := [10%N] ++ utf8 "🎯 使用说明:".
Definition msg_usage1 : str := utf8 "1. 在 Dataset Management 页面创建新数据集".
Definition msg_usage2 : str := utf8 "2. 使用转换后的文件: " ++ output_file.
Definition msg_usage3 : str := utf8 "3. 上传成功后，数据会自动导入到数据库".
Definition msg_failed (e : exn) : str := utf8 "❌ 转换失败: " ++ exn_str e.

(** Lines 122-125, 130 and 133. *)
Definition msg_rule : str := List.repeat 61%N 60.
Definition msg_title : str := utf8 "🇨🇦 加拿大恐怖实体CSV转换工具".
Definition msg_subtitle : str := utf8 "🎯 将原始CSV转换为Data Management Service兼容格式".
Definition msg_success : str := [10%N] ++ utf8 "🚀 转换成功! 您现在可以上传转换后的CSV文件了。".
Definition msg_failure : str := [10%N] ++ utf8 "💥 转换失败! 请检查错误信息。".

(** The keys the preview prints, in order (lines 103-107). *)
Definition preview_keys : list str :=
  [ py "organization_name"; py "external_id"; py "schema_type";
    py "published_date"; py "updated_date" ].

(** ** Sample rows *)

Definition text (s : string) : value := PyStr (py s).

Definition record (l : list (string * value)) : dict :=
  list_to_map (List.map (fun kv => (py (fst kv), snd kv)) l).

(** The row of the specification's first scenario. *)
Definition scenario_row : dict :=
  record [ ("name", text "Group A"); ("entity_id", text "T001");
           ("description", text "desc"); ("aliases", text "Alias1");
           ("published_date", text "Not yet reviewed");
           ("updated_date", text "2020-05-01");
           ("data_source_url", text "http://x") ]%string.

(** A row whose first date has blanks around it and whose second date is
    badly formed. *)
Definition padded_row : dict :=
  record [ ("name", text "Group B"); ("entity_id", text "T002");
           ("description", text ""); ("aliases", text "");
           ("published_date", text " 2020-05-01 ");
           ("updated_date", text "2020-5-01");
           ("data_source_url", text "http://y") ]%string.

(** A row whose dates are near misses of the sentinel. *)
Definition near_sentinel_row : dict :=
  record [ ("name", text "Group D"); ("entity_id", text "T004");
           ("description", text "desc"); ("aliases", text "");
           ("published_date", text " Not yet reviewed ");
           ("updated_date", text "not yet reviewed");
           ("data_source_url", text "http://w") ]%string.

(** The row of a line that stops after its second field. *)
Definition short_row : dict :=
  record [ ("name", text "Group E"); ("entity_id", text "T005");
           ("description", PyNone); ("aliases", PyNone);
           ("published_date", PyNone); ("updated_date", PyNone);
           ("data_source_url", PyNone) ]%string.

(** The first scenario's row as the output file gives it back. *)
Definition reread_scenario_row : dict :=
  record [ ("organization_name", text "Group A");
           ("external_id", text "T001");
           ("schema_type", text "Terrorist Organization");
           ("description", text "desc"); ("aliases", text "Alias1");
           ("published_date", text ""); ("updated_date", text "2020-05-01");
           ("data_source_url", text "http://x") ]%string.

(** A row whose first date is no day of any calendar. *)
Definition odd_date_row : dict :=
  record [ ("name", text "Group F"); ("entity_id", text "T007");
           ("description", text ""); ("aliases", text "");
           ("published_date", text "2020-13-45");
           ("updated_date", text "2020-05-01");
           ("data_source_url", text "http://u") ]%string.

(** The sample cells have neither quotes nor line ends: they are read back
    as written. *)
Definition as_written (c : str) : str := c.

(** A row read under a header that has neither [name] nor [aliases]. *)
Definition two_missing_row : dict :=
  record [ ("entity_id", text "T006"); ("description", text "desc");
           ("published_date", text "2020-13-45");
           ("updated_date", text "never");
           ("data_source_url", text "http://v") ]%string.

(** A row read under a header that has no [entity_id] column. *)
Definition no_id_row : dict :=
  record [ ("name", text "Group C");
           ("description", text "desc"); ("aliases", text "");
           ("published_date", text "2021-01-31");
           ("updated_date", text "");
           ("data_source_url", text "http://z") ]%string.

Section WithTables.

(** The interpreter's Unicode tables above ASCII: which code points
    [str.isspace] holds of, and which [\d] matches. *)
Variables unicode_space unicode_decimal : N -> bool.

Definition isspace (c : N) : bool :=
  if (c <? 128)%N then ascii_isspace c else unicode_space c.

Definition isdecimal (c : N) : bool :=
  if (c <? 128)%N then ascii_isdigit c else unicode_decimal c.

(** [s.lstrip()], [s.rstrip()] and [s.strip()] *)
Fixpoint lstrip (s : str) : str :=
  match s with
  | c :: s' => if isspace c then lstrip s' else s
  | [] => []
  end.

Fixpoint rstrip (s : str) : str :=
  match s with
  | c :: s' =>
      match rstrip s' with
      | [] => if isspace c then [] else [c]
      | r => c :: r
      end
  | [] => []
  end.

Definition strip (s : str) : str := rstrip (lstrip s).

(** [v.strip()], which [None] does not have. *)
Definition strip_method (v : value) : M str :=
  match v with
  | PyStr s => ret (strip s)
  | PyNone => raise AttributeError
  end.

(** [n] decimal digits at the head of [s]; what follows them. *)
Fixpoint take_digits (n : nat) (s : str) : option str :=
  match n with
  | O => Some s
  | S n' =>
      match s with
      | c :: s' => if isdecimal c then take_digits n' s' else None
      | [] => None
      end
  end.

(** The items [p] match at offset [pos], [s] being the rest of the subject.
    [$] matches at the end and before a newline that ends the subject. *)
Fixpoint match_here (p : list re_item) (pos : nat) (s : str) : bool :=
  match p with
  | [] => true
  | Bol :: p' => Nat.eqb pos 0 && match_here p' pos s
  | Eol :: p' =>
      (bool_decide (s = []) || bool_decide (s = [10%N])) && match_here p' pos s
  | Digits n :: p' =>
      match take_digits n s with
      | Some s' => match_here p' (pos + n)%nat s'
      | None => false
      end
  | Lit c :: p' =>
      match s with
      | c' :: s' => N.eqb c c' && match_here p' (pos + 1)%nat s'
      | [] => false
      end
  end.

(** [re.match(p, s)] as a condition: the pattern matches at the start. *)
Definition re_match (p : list re_item) (s : str) : bool := match_here p 0 s.

(** ** The loop body *)

(** Lines 71-72 and 74-75, for the date field [date_field]. *)
Definition null_unreviewed (date_field : str) (converted_row : dict) : M dict :=
  c <- por (v <- getitem converted_row date_field ;;
            ret (value_eqb v (PyStr sentinel)))
       (por (v <- getitem converted_row date_field ;;
             ret (negb (truthy v)))
            (v <- getitem converted_row date_field ;;
             t <- strip_method v ;;
             ret (negb (truthy (PyStr t))))) ;;
  if c then ret (<[date_field := PyNone]> converted_row)
  else ret converted_row.

(** Lines 79-82: the body of the loop over the two date fields. *)
Definition validate_date (date_field : str) (converted_row : dict) : M dict :=
  c <- pand (v <- getitem converted_row date_field ;;
             ret (truthy v))
            (v <- getitem converted_row date_field ;;
             t <- strip_method v ;;
             ret (truthy (PyStr t))) ;;
  if c then
    v <- getitem converted_row date_field ;;
    t <- strip_method v ;;
    if negb (re_match date_pattern t) then
      incr_fixed_dates ;;
      ret (<[date_field := PyNone]> converted_row)
    else ret converted_row
  else ret converted_row.

(** Lines 59-82: the dictionary display and the date clean-up. *)
Definition make_converted_row (row : dict) : M dict :=
  name <- getitem row (py "name") ;;
  entity_id <- getitem row (py "entity_id") ;;
  description <- getitem row (py "description") ;;
  aliases <- getitem row (py "aliases") ;;
  published_date <- getitem row (py "published_date") ;;
  updated_date <- getitem row (py "updated_date") ;;
  data_source_url <- getitem row (py "data_source_url") ;;
  let converted_row : dict :=
    <[py "data_source_url" := data_source_url]>
    (<[py "updated_date" := updated_date]>
    (<[py "published_date" := published_date]>
    (<[py "aliases" := aliases]>
    (<[py "description" := description]>
    (<[py "schema_type" := PyStr schema_type]>
    (<[py "external_id" := entity_id]>
    (<[py "organization_name" := name]> ∅))))))) in
  converted_row <- null_unreviewed (py "published_date") converted_row ;;
  converted_row <- null_unreviewed (py "updated_date") converted_row ;;
  for_fold validate_date date_fields converted_row.

(** Lines 59-85: the [try] block. *)
Definition try_block (row : dict) : M unit :=
  converted_row <- make_converted_row row ;;
  writerow converted_row ;;
  incr_converted_rows.

(** Line 88: the warning of the [except] clause. *)
Definition warning (row : dict) (e : exn) : str :=
  warning_prefix
    ++ str_of (dict_get row (py "entity_id") (PyStr (py "unknown")))
    ++ py ": " ++ exn_str e.

(** Lines 57-89: [try: ... except Exception as e: print(...); continue]. *)
Definition loop_body (row : dict) : M unit :=
  fun st =>
    match try_block row st with
    | (inl e, st') => print (warning row e) st'
    | (inr tt, st') => (inr tt, st')
    end.

(** State after [writer.writeheader()] and the two assignments of lines
    53-54. *)
Definition initial : state := State [fieldnames] 0 0 [].

(** Lines 50-89 over the rows the reader yields. *)
Definition convert_terrorist_csv (rows : list dict) : (exn + unit) * state :=
  for_each loop_body rows initial.

(** ** Vocabulary of the properties *)

(** The row has the seven keys the dictionary display reads. *)
Definition complete (row : dict) : bool :=
  forallb (fun k => bool_decide (is_Some (row !! k))) source_keys.

(** The first of the seven keys the row lacks. *)
Definition first_missing (row : dict) : option str :=
  List.find (fun k => negb (bool_decide (is_Some (row !! k)))) source_keys.

(** The string is empty or made of whitespace only. *)
Definition blank (s : str) : bool := forallb isspace s.

(** A date value the format check rejects: a string that is neither the
    sentinel nor blank, and whose trimmed form the pattern does not match. *)
Definition malformed (v : value) : bool :=
  match v with
  | PyNone => false
  | PyStr s =>
      negb (bool_decide (s = sentinel)) && negb (blank s)
      && negb (re_match date_pattern (strip s))
  end.

(** What lines 71-82 leave in a date field that held [v]. *)
Definition clean_date (v : value) : value :=
  match v with
  | PyNone => PyNone
  | PyStr s =>
      if bool_decide (s = sentinel) || blank s then PyNone
      else if re_match date_pattern (strip s) then PyStr s
      else PyNone
  end.

(** What lines 71-75 leave in a date field that held [v]. *)
Definition nulled (v : value) : value :=
  match v with
  | PyNone => PyNone
  | PyStr s => if bool_decide (s = sentinel) || blank s then PyNone else PyStr s
  end.

(** What lines 79-82 leave in a date field that held [v], and whether they
    count it. *)
Definition checked (v : value) : value :=
  match v with
  | PyNone => PyNone
  | PyStr s =>
      if blank s then PyStr s
      else if re_match date_pattern (strip s) then PyStr s
      else PyNone
  end.

Definition rejected (v : value) : bool :=
  match v with
  | PyNone => false
  | PyStr s => negb (blank s) && negb (re_match date_pattern (strip s))
  end.

(** The value under key [k], [None] standing for an absent key. *)
Definition val (row : dict) (k : str) : value := dict_get row k PyNone.

(** The cells written for a complete row. *)
Definition converted_cells (row : dict) : list str :=
  [ render (val row (py "name"));
    render (val row (py "entity_id"));
    schema_type;
    render (val row (py "description"));
    render (val row (py "aliases"));
    render (clean_date (val row (py "published_date")));
    render (clean_date (val row (py "updated_date")));
    render (val row (py "data_source_url")) ].

(** The dictionary handed to the writer for a complete row. *)
Definition converted_dict (row : dict) : dict :=
  <[py "data_source_url" := val row (py "data_source_url")]>
  (<[py "updated_date" := clean_date (val row (py "updated_date"))]>
  (<[py "published_date" := clean_date (val row (py "published_date"))]>
  (<[py "aliases" := val row (py "aliases")]>
  (<[py "description" := val row (py "description")]>
  (<[py "schema_type" := PyStr schema_type]>
  (<[py "external_id" := val row (py "entity_id")]>
  (<[py "organization_name" := val row (py "name")]> ∅))))))).

(** The state a complete row leaves. *)
Definition after_converted (row : dict) (st : state) : state :=
  State (outfile st ++ [converted_cells row])
        (converted_rows st + 1)
        (fixed_dates st
         + Z.b2z (malformed (val row (py "published_date")))
         + Z.b2z (malformed (val row (py "updated_date"))))
        (stdout st).

(** The state a row lacking key [k] leaves. *)
Definition after_skipped (row : dict) (k : str) (st : state) : state :=
  State (outfile st) (converted_rows st) (fixed_dates st)
        (stdout st ++ [warning row (KeyError k)]).

(** The source columns copied as they are, each with its target column. *)
Definition copied_columns : list (str * str) :=
  [ (py "name", py "organization_name");
    (py "entity_id", py "external_id");
    (py "description", py "description");
    (py "aliases", py "aliases");
    (py "data_source_url", py "data_source_url") ].

(** The other date field. *)
Definition other_date (f : str) : str :=
  if bool_decide (f = py "published_date") then py "updated_date"
  else py "published_date".

(** ** The rest of the function, and [main] *)

(** [open(output_file, 'w')] empties the file. *)
Definition open_output : M unit :=
  fun st => (inr tt, State [] (converted_rows st) (fixed_dates st) (stdout st)).

(** [writer.writeheader()] *)
Definition writeheader : M unit :=
  fun st => (inr tt, State (outfile st ++ [fieldnames]) (converted_rows st)
                           (fixed_dates st) (stdout st)).

(** Lines 53-54. *)
Definition reset_counters : M unit :=
  fun st => (inr tt, State (outfile st) 0 0 (stdout st)).

Definition get_converted_rows : M Z := fun st => (inr (converted_rows st), st).

Definition get_fixed_dates : M Z := fun st => (inr (fixed_dates st), st).

(** Lines 99-107: [for i, row in enumerate(reader)], over the rows from index
    [i] on. *)
Fixpoint preview_loop (i : nat) (rows : list dict) : M unit :=
  match rows with
  | [] => ret tt
  | row :: rows' =>
      if (2 <=? i)%nat then ret tt
      else
        print (msg_row i) ;;
        v <- getitem row (py "organization_name") ;;
        print (msg_name v) ;;
        v <- getitem row (py "external_id") ;;
        print (msg_id v) ;;
        v <- getitem row (py "schema_type") ;;
        print (msg_type v) ;;
        v <- getitem row (py "published_date") ;;
        print (msg_published v) ;;
        v <- getitem row (py "updated_date") ;;
        print (msg_updated v) ;;
        preview_loop (S i) rows'
  end.

(** [for row in reader: body], the reader yielding [rows] and then stopping,
    or raising [ReaderError msg] when [read_error] is [Some msg]. *)
Definition for_reader (body : dict -> M unit) (rows : list dict)
    (read_error : option str) : M unit :=
  for_each body rows ;;
  match read_error with
  | Some msg => raise (ReaderError msg)
  | None => ret tt
  end.

(** In what follows [readback] is the text of a cell as the CSV layer
    gives it back from the file: quoting undone and line ends as the text
    file translates them. *)

(** [dict(zip(fieldnames, row))] of [csv.DictReader], a later pair
    overriding an earlier one and the columns the row does not reach
    holding [None]; cells beyond the header go under the key [None], which
    the script never looks up. *)
Fixpoint zip_row (readback : str -> str) (header : list str)
    (cells : list str) (d : dict) : dict :=
  match header with
  | [] => d
  | k :: header' =>
      match cells with
      | c :: cells' =>
          zip_row readback header' cells' (<[k := PyStr (readback c)]> d)
      | [] => zip_row readback header' [] (<[k := PyNone]> d)
      end
  end.

(** The rows [csv.DictReader] yields for a file: the first row is the
    header, taken as written (the field names of this script have no
    character the CSV layer changes), and empty rows are skipped. *)
Definition read_back (readback : str -> str) (file : list (list str))
  : list dict :=
  match file with
  | [] => []
  | header :: data =>
      List.map (fun cells => zip_row readback header cells ∅)
        (List.filter (fun cells => negb (bool_decide (cells = []))) data)
  end.

(** Lines 97-98: the output file is opened again and read. *)
Definition reopen_output (readback : str -> str) : M (list dict) :=
  fun st => (inr (read_back readback (outfile st)), st).

(** Lines 33-114, the body of the outer [try]: [rows] and [read_error] are
    what the reader of the input file yields. *)
Definition conversion (readback : str -> str)
    (rows : list dict) (read_error : option str) : M bool :=
  open_output ;;
  writeheader ;;
  reset_counters ;;
  for_reader loop_body rows read_error ;;
  print msg_done ;;
  n <- get_converted_rows ;;
  print (msg_converted n) ;;
  m <- get_fixed_dates ;;
  print (msg_fixed m) ;;
  print msg_preview ;;
  reread <- reopen_output readback ;;
  preview_loop 0 reread ;;
  print msg_usage ;;
  print msg_usage1 ;;
  print msg_usage2 ;;
  print msg_usage3 ;;
  ret true.

(** Lines 17-118: the function as called, [input_exists] being the answer of
    [os.path.exists(input_file)]. *)
Definition convert_terrorist_csv_call (readback : str -> str)
    (input_exists : bool) (rows : list dict) (read_error : option str)
  : M bool :=
  print msg_start ;;
  print msg_input ;;
  print msg_output ;;
  if negb input_exists then
    print msg_missing ;;
    ret false
  else
    fun st =>
      match conversion readback rows read_error st with
      | (inl e, st') => (print (msg_failed e) ;; ret false) st'
      | (inr b, st') => (inr b, st')
      end.

(** Lines 120-134: the value [main] returns is the exit status. *)
Definition main (readback : str -> str)
    (input_exists : bool) (rows : list dict) (read_error : option str)
  : M Z :=
  print msg_rule ;;
  print msg_title ;;
  print msg_subtitle ;;
  print msg_rule ;;
  success <- convert_terrorist_csv_call readback input_exists rows read_error ;;
  if success then
    print msg_success ;;
    ret 0
  else
    print msg_failure ;;
    ret 1.

(** ** More vocabulary *)

(** Four digits, a hyphen, two digits, a hyphen, two digits, and nothing
    else. *)
Definition date_shape (t : str) : bool :=
  match t with
  | [y1; y2; y3; y4; h1; m1; m2; h2; d1; d2] =>
      isdecimal y1 && isdecimal y2 && isdecimal y3 && isdecimal y4
      && N.eqb 45 h1 && isdecimal m1 && isdecimal m2
      && N.eqb 45 h2 && isdecimal d1 && isdecimal d2
  | _ => false
  end.

(** What the pass adds to [fixed_dates] for a complete row. *)
Definition fixed_in (row : dict) : Z :=
  Z.b2z (malformed (val row (py "published_date")))
  + Z.b2z (malformed (val row (py "updated_date"))).

Definition sum (l : list Z) : Z := fold_right Z.add 0 l.

(** The warning the pass prints for a row, if any. *)
Definition warning_of (row : dict) : list str :=
  match first_missing row with
  | Some k => [warning row (KeyError k)]
  | None => []
  end.

(** The row has the five keys the preview prints. *)
Definition previewable (row : dict) : bool :=
  forallb (fun k => bool_decide (is_Some (row !! k))) preview_keys.

(** The six lines the preview prints for the row of index [i]. *)
Definition preview_lines (i : nat) (row : dict) : list str :=
  [ msg_row i;
    msg_name (val row (py "organization_name"));
    msg_id (val row (py "external_id"));
    msg_type (val row (py "schema_type"));
    msg_published (val row (py "published_date"));
    msg_updated (val row (py "updated_date")) ].

(** The lines of a preview that starts at index [i]. *)
Fixpoint preview_output (i : nat) (rows : list dict) : list str :=
  match rows with
  | [] => []
  | row :: rows' => preview_lines i row ++ preview_output (S i) rows'
  end.

(** The column a source key goes to (line 59). *)
Definition target_column (k : str) : str :=
  if bool_decide (k = py "name") then py "organization_name"
  else if bool_decide (k = py "entity_id") then py "external_id"
  else k.

(** What the date fields other than [k] add to [fixed_dates]. *)
Definition counted_elsewhere (row : dict) (k : str) : Z :=
  sum (List.map (fun f => Z.b2z (malformed (val row f)))
         (List.filter (fun f => negb (bool_decide (f = k))) date_fields)).



(** The state with [lines] printed. *)
Definition printed (lines : list str) (st : state) : state :=
  State (outfile st) (converted_rows st) (fixed_dates st) (stdout st ++ lines).

(** ** Trimming *)

Lemma lstrip_blank (s : str) : blank s = true -> lstrip s = [].
Proof.
  induction s as [|c s IH]; simpl; [reflexivity|].
  intros H. apply andb_true_iff in H as [Hc Hs]. rewrite Hc. auto.
Qed.

Lemma blank_lstrip (s : str) : blank (lstrip s) = blank s.
Proof.
  induction s as [|c s IH]; simpl; [reflexivity|].
  destruct (isspace c) eqn:Hc; simpl; [assumption|].
  now rewrite Hc.
Qed.

Lemma rstrip_nil (s : str) : rstrip s = [] <-> blank s = true.
Proof.
  induction s as [|c s IH]; simpl; [tauto|].
  destruct (rstrip s) as [|r rs] eqn:Hr.
  - destruct (isspace c); simpl.
    + tauto.
    + split; discriminate.
  - split; [discriminate|].
    intros H. apply andb_true_iff in H as [_ Hs].
    apply IH in Hs. discriminate.
Qed.

Lemma strip_nil (s : str) : strip s = [] <-> blank s = true.
Proof. unfold strip. rewrite rstrip_nil, blank_lstrip. tauto. Qed.

Lemma strip_blank (s : str) : blank s = true -> strip s = [].
Proof. apply strip_nil. Qed.

Lemma strip_not_blank (s : str) : blank s = false -> strip s <> [].
Proof. intros H E. apply strip_nil in E. congruence. Qed.

(** A string that starts with a character that is not whitespace keeps it
    at the head of its trimmed form. *)
Lemma strip_head (c : N) (s : str) :
  isspace c = false -> exists t, strip (c :: s) = c :: t.
Proof.
  intros Hc. unfold strip. simpl. rewrite Hc. simpl.
  destruct (rstrip s); rewrite ?Hc; eauto.
Qed.

Lemma blank_cons_false (c : N) (s : str) :
  isspace c = false -> blank (c :: s) = false.
Proof. intros Hc. simpl. now rewrite Hc. Qed.

(** ** The pattern *)

Lemma re_match_head (c : N) (s : str) :
  isdecimal c = false -> re_match date_pattern (c :: s) = false.
Proof. intros Hc. unfold re_match. simpl. now rewrite Hc. Qed.

Lemma re_match_nil : re_match date_pattern [] = false.
Proof. reflexivity. Qed.

Lemma re_match_sentinel : re_match date_pattern sentinel = false.
Proof. reflexivity. Qed.

Lemma sentinel_not_blank : blank sentinel = false.
Proof. reflexivity. Qed.

(** ** The steps of the loop body *)

Lemma getitem_Some (d : dict) (k : str) (v : value) (st : state) :
  d !! k = Some v -> getitem d k st = (inr v, st).
Proof. intros H. unfold getitem. now rewrite H. Qed.

Lemma getitem_None (d : dict) (k : str) (st : state) :
  d !! k = None -> getitem d k st = (inl (KeyError k), st).
Proof. intros H. unfold getitem. now rewrite H. Qed.

Lemma bind_ret {A B : Type} (a : A) (f : A -> M B) (st : state) :
  bind (ret a) f st = f a st.
Proof. reflexivity. Qed.

Lemma bind_assoc {A B C : Type} (m : M A) (g : A -> M B) (h : B -> M C) (st : state) :
  bind (bind m g) h st = bind m (fun x => bind (g x) h) st.
Proof. unfold bind. destruct (m st) as [[e|a] st']; reflexivity. Qed.

Lemma bind_getitem {B : Type} (d : dict) (k : str) (v : value) (g : value -> M B)
    (st : state) :
  d !! k = Some v -> bind (getitem d k) g st = g v st.
Proof. intros H. unfold bind. now rewrite (getitem_Some d k v st H). Qed.

Lemma bind_if {A B : Type} (c : bool) (m1 m2 : M A) (h : A -> M B) (st : state) :
  bind (if c then m1 else m2) h st = if c then bind m1 h st else bind m2 h st.
Proof. now destruct c. Qed.

Lemma bind_inr {A B : Type} (m : M A) (f : A -> M B) (st st' : state) (a : A) :
  m st = (inr a, st') -> bind m f st = f a st'.
Proof. intros H. unfold bind. now rewrite H. Qed.

Lemma bind_inl {A B : Type} (m : M A) (f : A -> M B) (st st' : state) (e : exn) :
  m st = (inl e, st') -> bind m f st = (inl e, st').
Proof. intros H. unfold bind. now rewrite H. Qed.

Ltac mstep H :=
  repeat first
    [ rewrite bind_assoc
    | rewrite (bind_getitem _ _ _ _ _ H)
    | rewrite bind_ret
    | rewrite bind_if ];
  cbn beta.

Lemma truthy_None : truthy PyNone = false.
Proof. reflexivity. Qed.

Lemma truthy_nil : truthy (PyStr []) = false.
Proof. reflexivity. Qed.

Lemma truthy_cons (c : N) (s : str) : truthy (PyStr (c :: s)) = true.
Proof. reflexivity. Qed.

Lemma truthy_strip (s : str) : truthy (PyStr (strip s)) = negb (blank s).
Proof.
  destruct (blank s) eqn:Hb.
  - now rewrite (strip_blank s Hb).
  - apply strip_not_blank in Hb. now destruct (strip s).
Qed.

#[local] Arguments truthy : simpl never.

Lemma state_eta (st : state) :
  State (outfile st) (converted_rows st) (fixed_dates st + 0) (stdout st) = st.
Proof. destruct st; simpl. now rewrite Z.add_0_r. Qed.

Lemma null_unreviewed_spec (f : str) (d : dict) (v : value) (st : state) :
  d !! f = Some v ->
  null_unreviewed f d st = (inr (<[f := nulled v]> d), st).
Proof.
  intros Hf. unfold null_unreviewed, por. mstep Hf.
  destruct v as [|s]; cbn [value_eqb nulled].
  - reflexivity.
  - destruct (bool_decide (s = sentinel)); cbn [orb].
    + reflexivity.
    + mstep Hf.
      destruct s as [|c s]; rewrite ?truthy_nil, ?truthy_cons; cbn [negb].
      * reflexivity.
      * mstep Hf. unfold strip_method. mstep Hf.
        rewrite truthy_strip, negb_involutive.
        destruct (blank (c :: s)); [reflexivity|].
        unfold ret. now rewrite (insert_id d f _ Hf).
Qed.

Lemma validate_date_spec (f : str) (d : dict) (v : value) (st : state) :
  d !! f = Some v ->
  validate_date f d st =
    (inr (<[f := checked v]> d),
     State (outfile st) (converted_rows st)
           (fixed_dates st + Z.b2z (rejected v)) (stdout st)).
Proof.
  intros Hf. unfold validate_date, pand. mstep Hf.
  destruct v as [|s]; cbn [checked rejected].
  - rewrite truthy_None. unfold ret. simpl.
    now rewrite state_eta, (insert_id d f _ Hf).
  - destruct s as [|c s]; rewrite ?truthy_nil, ?truthy_cons.
    + unfold ret. simpl. now rewrite state_eta, (insert_id d f _ Hf).
    + mstep Hf. unfold strip_method. mstep Hf.
      rewrite truthy_strip.
      destruct (blank (c :: s)); cbn [negb andb].
      * unfold ret. simpl. now rewrite state_eta, (insert_id d f _ Hf).
      * mstep Hf.
        destruct (re_match date_pattern (strip (c :: s))); cbn [negb].
        -- unfold ret. simpl. now rewrite state_eta, (insert_id d f _ Hf).
        -- reflexivity.
Qed.

Lemma checked_nulled (v : value) : checked (nulled v) = clean_date v.
Proof.
  destruct v as [|s]; simpl; [reflexivity|].
  destruct (bool_decide (s = sentinel)); simpl; [reflexivity|].
  destruct (blank s) eqn:Hb; simpl; [reflexivity|].
  now rewrite Hb.
Qed.

Lemma rejected_nulled (v : value) : rejected (nulled v) = malformed v.
Proof.
  destruct v as [|s]; simpl; [reflexivity|].
  destruct (bool_decide (s = sentinel)); simpl; [reflexivity|].
  destruct (blank s) eqn:Hb; simpl; [reflexivity|].
  now rewrite Hb.
Qed.

(** ** One row *)

Lemma complete_lookup (row : dict) (k : str) :
  complete row = true -> In k source_keys -> row !! k = Some (val row k).
Proof.
  unfold complete. rewrite forallb_forall. intros H Hk.
  specialize (H k Hk). apply bool_decide_eq_true in H as [v Hv].
  unfold val, dict_get. now rewrite Hv.
Qed.

Lemma incomplete_first_missing (row : dict) :
  complete row = false ->
  exists k, first_missing row = Some k /\ In k source_keys /\ row !! k = None.
Proof.
  intros H. unfold first_missing.
  destruct (List.find _ source_keys) as [k|] eqn:Hfind.
  - exists k. apply find_some in Hfind as [Hin Hk].
    repeat split; [assumption|].
    apply negb_true_iff, bool_decide_eq_false in Hk.
    destruct (row !! k) eqn:E; [|reflexivity].
    exfalso. apply Hk. eauto.
  - exfalso. assert (complete row = true); [|congruence].
    unfold complete. apply forallb_forall. intros k Hk.
    pose proof (find_none _ _ Hfind k Hk) as Hn. simpl in Hn.
    now apply negb_false_iff in Hn.
Qed.

Lemma make_converted_row_complete (row : dict) (st : state) :
  complete row = true ->
  make_converted_row row st =
    (inr (converted_dict row),
     State (outfile st) (converted_rows st)
           (fixed_dates st
            + Z.b2z (malformed (val row (py "published_date")))
            + Z.b2z (malformed (val row (py "updated_date"))))
           (stdout st)).
Proof.
  intros Hc. unfold make_converted_row.
  rewrite (bind_getitem _ _ _ _ _ (complete_lookup row (py "name") Hc ltac:(simpl; tauto))).
  rewrite (bind_getitem _ _ _ _ _ (complete_lookup row (py "entity_id") Hc ltac:(simpl; tauto))).
  rewrite (bind_getitem _ _ _ _ _ (complete_lookup row (py "description") Hc ltac:(simpl; tauto))).
  rewrite (bind_getitem _ _ _ _ _ (complete_lookup row (py "aliases") Hc ltac:(simpl; tauto))).
  rewrite (bind_getitem _ _ _ _ _ (complete_lookup row (py "published_date") Hc ltac:(simpl; tauto))).
  rewrite (bind_getitem _ _ _ _ _ (complete_lookup row (py "updated_date") Hc ltac:(simpl; tauto))).
  rewrite (bind_getitem _ _ _ _ _ (complete_lookup row (py "data_source_url") Hc ltac:(simpl; tauto))).
  cbv zeta. unfold converted_dict.
  generalize (val row (py "name")) (val row (py "entity_id"))
    (val row (py "description")) (val row (py "aliases"))
    (val row (py "published_date")) (val row (py "updated_date"))
    (val row (py "data_source_url")).
  intros v1 v2 v3 v4 v5 v6 v7.
  erewrite bind_inr;
    [|apply (null_unreviewed_spec _ _ v5); by simplify_map_eq].
  erewrite bind_inr;
    [|apply (null_unreviewed_spec _ _ v6); by simplify_map_eq].
  unfold date_fields, for_fold.
  erewrite bind_inr;
    [|apply (validate_date_spec _ _ (nulled v5)); by simplify_map_eq].
  erewrite bind_inr;
    [|apply (validate_date_spec _ _ (nulled v6)); by simplify_map_eq].
  rewrite !checked_nulled, !rejected_nulled. unfold ret. cbn [outfile converted_rows fixed_dates stdout].
  f_equal.
Qed.

Lemma writerow_converted (row : dict) (st : state) :
  writerow (converted_dict row) st =
    (inr tt, State (outfile st ++ [converted_cells row]) (converted_rows st)
                   (fixed_dates st) (stdout st)).
Proof. reflexivity. Qed.

Lemma try_block_complete (row : dict) (st : state) :
  complete row = true -> try_block row st = (inr tt, after_converted row st).
Proof.
  intros Hc. unfold try_block.
  rewrite (bind_inr _ _ _ _ _ (make_converted_row_complete row st Hc)).
  reflexivity.
Qed.

Lemma loop_body_complete (row : dict) (st : state) :
  complete row = true -> loop_body row st = (inr tt, after_converted row st).
Proof. intros Hc. unfold loop_body. now rewrite (try_block_complete row st Hc). Qed.

Lemma has_key_Some (v : value) : bool_decide (is_Some (Some v)) = true.
Proof. apply bool_decide_eq_true. eauto. Qed.

Lemma has_key_None : bool_decide (is_Some (@None value)) = false.
Proof. apply bool_decide_eq_false. intros [v Hv]. discriminate. Qed.

Ltac next_key H k :=
  let E := fresh "E" in
  destruct (_ !! k) eqn:E;
  [ rewrite has_key_Some in H; cbn [negb] in H;
    rewrite (bind_getitem _ _ _ _ _ E)
  | rewrite has_key_None in H; cbn [negb] in H;
    injection H as <-;
    now rewrite (bind_inl _ _ _ _ _ (getitem_None _ _ _ E)) ].

Lemma make_converted_row_incomplete (row : dict) (k : str) (st : state) :
  first_missing row = Some k ->
  make_converted_row row st = (inl (KeyError k), st).
Proof.
  unfold first_missing, source_keys, make_converted_row. cbn [List.find].
  intros H.
  next_key H (py "name"). next_key H (py "entity_id").
  next_key H (py "description"). next_key H (py "aliases").
  next_key H (py "published_date"). next_key H (py "updated_date").
  next_key H (py "data_source_url").
  discriminate.
Qed.

Lemma loop_body_incomplete (row : dict) (k : str) (st : state) :
  first_missing row = Some k ->
  loop_body row st = (inr tt, after_skipped row k st).
Proof.
  intros Hk. unfold loop_body, try_block.
  now rewrite (bind_inl _ _ _ _ _ (make_converted_row_incomplete row k st Hk)).
Qed.

(** The loop body never raises. *)
Lemma loop_body_returns (row : dict) (st : state) :
  fst (loop_body row st) = inr tt.
Proof.
  destruct (complete row) eqn:Hc.
  - now rewrite (loop_body_complete row st Hc).
  - destruct (incomplete_first_missing row Hc) as (k & Hk & _).
    now rewrite (loop_body_incomplete row k st Hk).
Qed.

(** ** The whole pass *)

Lemma for_each_cons (row : dict) (rows : list dict) (st : state) :
  for_each loop_body (row :: rows) st
  = for_each loop_body rows (snd (loop_body row st)).
Proof.
  simpl. unfold bind. pose proof (loop_body_returns row st) as H.
  destruct (loop_body row st) as [[e|[]] st']; simpl in *; [discriminate|].
  reflexivity.
Qed.

Lemma for_each_returns (rows : list dict) (st : state) :
  fst (for_each loop_body rows st) = inr tt.
Proof.
  revert st. induction rows as [|row rows IH]; intros st; [reflexivity|].
  rewrite for_each_cons. apply IH.
Qed.

Lemma for_each_outfile (rows : list dict) (st : state) :
  outfile (snd (for_each loop_body rows st))
  = outfile st ++ List.map converted_cells (List.filter complete rows).
Proof.
  revert st. induction rows as [|row rows IH]; intros st.
  - simpl. now rewrite app_nil_r.
  - rewrite for_each_cons, IH. simpl List.filter.
    destruct (complete row) eqn:Hc.
    + rewrite (loop_body_complete row st Hc). simpl. now rewrite <- app_assoc.
    + destruct (incomplete_first_missing row Hc) as (k & Hk & _).
      now rewrite (loop_body_incomplete row k st Hk).
Qed.

Lemma for_each_converted_rows (rows : list dict) (st : state) :
  converted_rows (snd (for_each loop_body rows st))
  = converted_rows st + Z.of_nat (length (List.filter complete rows)).
Proof.
  revert st. induction rows as [|row rows IH]; intros st.
  - simpl. lia.
  - rewrite for_each_cons, IH. simpl List.filter.
    destruct (complete row) eqn:Hc.
    + rewrite (loop_body_complete row st Hc). simpl length. simpl. lia.
    + destruct (incomplete_first_missing row Hc) as (k & Hk & _).
      now rewrite (loop_body_incomplete row k st Hk).
Qed.

Lemma filter_split_length {A : Type} (p : A -> bool) (l : list A) :
  (length (List.filter p l) + length (List.filter (fun x => negb (p x)) l)
   = length l)%nat.
Proof.
  induction l as [|x l IH]; simpl; [reflexivity|].
  destruct (p x); simpl; lia.
Qed.

(** ** The fields of a converted row *)

Lemma val_lookup (row : dict) (k : str) (v : value) :
  row !! k = Some v -> val row k = v.
Proof. intros H. unfold val, dict_get. now rewrite H. Qed.

Lemma converted_dict_date (row : dict) (f : str) :
  In f date_fields ->
  converted_dict row !! f = Some (clean_date (val row f)).
Proof. intros [<-|[<-|[]]]; reflexivity. Qed.

Lemma converted_cells_date (row : dict) (f : str) :
  In f date_fields ->
  csv_field (converted_cells row) f = Some (render (clean_date (val row f))).
Proof. intros [<-|[<-|[]]]; reflexivity. Qed.

Lemma converted_dict_copied (row : dict) (src dst : str) :
  In (src, dst) copied_columns ->
  converted_dict row !! dst = Some (val row src).
Proof.
  intros H. repeat (destruct H as [H|H]; [injection H as <- <-; reflexivity|]).
  destruct H.
Qed.

Lemma converted_cells_copied (row : dict) (src dst : str) :
  In (src, dst) copied_columns ->
  csv_field (converted_cells row) dst = Some (render (val row src)).
Proof.
  intros H. repeat (destruct H as [H|H]; [injection H as <- <-; reflexivity|]).
  destruct H.
Qed.

Lemma copied_source_key (src dst : str) :
  In (src, dst) copied_columns -> In src source_keys.
Proof.
  intros H.
  repeat (destruct H as [H|H]; [injection H as <- <-; simpl; tauto|]).
  destruct H.
Qed.

Lemma date_field_source_key (f : str) : In f date_fields -> In f source_keys.
Proof. intros [<-|[<-|[]]]; simpl; tauto. Qed.

Lemma other_date_field (f : str) :
  In f date_fields -> In (other_date f) date_fields /\ other_date f <> f.
Proof. intros [<-|[<-|[]]]; (split; [simpl; tauto | discriminate]). Qed.

Lemma fixed_dates_after (row : dict) (f : str) (st : state) :
  In f date_fields ->
  fixed_dates (after_converted row st)
  = fixed_dates st + Z.b2z (malformed (val row f))
    + Z.b2z (malformed (val row (other_date f))).
Proof. intros [<-|[<-|[]]]; simpl; change (other_date _) with (py "updated_date") || change (other_date _) with (py "published_date"); lia. Qed.

Lemma clean_date_blank (s : str) :
  s = sentinel \/ s = [] \/ blank s = true -> clean_date (PyStr s) = PyNone.
Proof.
  intros [->|[->|H]]; simpl.
  - reflexivity.
  - reflexivity.
  - rewrite H. now rewrite orb_true_r.
Qed.

Lemma malformed_true (s : str) :
  s <> sentinel -> blank s = false ->
  re_match date_pattern (strip s) = false -> malformed (PyStr s) = true.
Proof.
  intros Hs Hb Hm. simpl.
  rewrite (bool_decide_eq_false_2 _ Hs), Hb, Hm. reflexivity.
Qed.

Lemma clean_date_malformed (v : value) :
  malformed v = true -> clean_date v = PyNone.
Proof.
  destruct v as [|s]; simpl; [discriminate|].
  destruct (bool_decide (s = sentinel)); [reflexivity|].
  destruct (blank s); [reflexivity|]. simpl.
  now destruct (re_match date_pattern (strip s)).
Qed.

Lemma clean_date_kept (s : str) :
  s <> sentinel -> blank s = false ->
  re_match date_pattern (strip s) = true -> clean_date (PyStr s) = PyStr s.
Proof.
  intros Hs Hb Hm. simpl.
  now rewrite (bool_decide_eq_false_2 _ Hs), Hb, Hm.
Qed.

(** A value the pattern matches as it stands, with nothing to trim, is not
    the sentinel and is not blank. *)
Lemma exact_match_kept (s : str) :
  strip s = s -> re_match date_pattern s = true ->
  s <> sentinel /\ blank s = false /\ re_match date_pattern (strip s) = true.
Proof.
  intros Hstrip Hm. repeat split.
  - intros ->. now rewrite re_match_sentinel in Hm.
  - destruct (blank s) eqn:Hb; [|reflexivity].
    rewrite (strip_blank s Hb) in Hstrip. subst s. discriminate.
  - now rewrite Hstrip.
Qed.

(** ** Date fields *)

(** C1: for a row that is converted and for each of [published_date] and
    [updated_date], a source value that is the sentinel ["Not yet reviewed"],
    the empty string or whitespace only leaves [None] in the converted row,
    and the field is written empty. *)
Theorem blank_date_is_null (row : dict) (f : str) (s : str) (st : state) :
  complete row = true ->
  In f date_fields ->
  row !! f = Some (PyStr s) ->
  s = sentinel \/ s = [] \/ blank s = true ->
  exists converted_row st1 cells st2,
    make_converted_row row st = (inr converted_row, st1)
    /\ converted_row !! f = Some PyNone
    /\ loop_body row st = (inr tt, st2)
    /\ outfile st2 = outfile st ++ [cells]
    /\ csv_field cells f = Some [].
Proof.
  intros Hc Hf Hrow Hs.
  exists (converted_dict row); eexists; exists (converted_cells row);
    exists (after_converted row st).
  split; [apply (make_converted_row_complete row st Hc)|].
  rewrite (converted_dict_date row f Hf), (converted_cells_date row f Hf).
  rewrite (val_lookup row f _ Hrow), (clean_date_blank s Hs).
  auto using loop_body_complete.
Qed.

(** C2: for a row that is converted and for each date field, a source value
    that is not the sentinel, not empty or whitespace only, and whose trimmed
    form the pattern does not match leaves [None] in the converted row, is
    written empty, and is counted once in [fixed_dates]: the check of that
    field adds one, and the row adds one more than what its other date field
    adds. *)
Theorem malformed_date_is_null_and_counted
    (row : dict) (f : str) (s : str) (st : state) :
  complete row = true ->
  In f date_fields ->
  row !! f = Some (PyStr s) ->
  s <> sentinel ->
  blank s = false ->
  re_match date_pattern (strip s) = false ->
  (exists converted_row st1 cells st2,
     make_converted_row row st = (inr converted_row, st1)
     /\ converted_row !! f = Some PyNone
     /\ loop_body row st = (inr tt, st2)
     /\ outfile st2 = outfile st ++ [cells]
     /\ csv_field cells f = Some []
     /\ fixed_dates st2
        = fixed_dates st + 1 + Z.b2z (malformed (val row (other_date f))))
  /\ (forall (d : dict) (st0 : state),
        d !! f = Some (PyStr s) ->
        exists d', validate_date f d st0
          = (inr d', State (outfile st0) (converted_rows st0)
                           (fixed_dates st0 + 1) (stdout st0))
          /\ d' !! f = Some PyNone).
Proof.
  intros Hc Hf Hrow Hs Hb Hm.
  pose proof (malformed_true s Hs Hb Hm) as Hmal.
  split.
  - exists (converted_dict row); eexists; exists (converted_cells row);
      exists (after_converted row st).
    split; [apply (make_converted_row_complete row st Hc)|].
    rewrite (converted_dict_date row f Hf), (converted_cells_date row f Hf).
    rewrite (fixed_dates_after row f st Hf).
    rewrite (val_lookup row f _ Hrow), (clean_date_malformed _ Hmal), Hmal.
    auto using loop_body_complete.
  - intros d st0 Hd. exists (<[f := PyNone]> d).
    rewrite (validate_date_spec f d _ st0 Hd). simpl.
    rewrite Hb, Hm. simpl. split; [reflexivity|apply lookup_insert_eq].
Qed.

(** C3, as the code has it: for a row that is converted and for each date
    field, a source string whose trimmed form the pattern does not match
    leaves [None] and is written empty; it is counted once in [fixed_dates]
    unless it is the sentinel or blank, which are not counted. *)
Theorem unmatched_date_is_null
    (row : dict) (f : str) (s : str) (st : state) :
  complete row = true ->
  In f date_fields ->
  row !! f = Some (PyStr s) ->
  re_match date_pattern (strip s) = false ->
  exists converted_row st1 cells st2,
    make_converted_row row st = (inr converted_row, st1)
    /\ converted_row !! f = Some PyNone
    /\ loop_body row st = (inr tt, st2)
    /\ outfile st2 = outfile st ++ [cells]
    /\ csv_field cells f = Some []
    /\ fixed_dates st2
       = fixed_dates st
         + (if bool_decide (s = sentinel) || blank s then 0 else 1)
         + Z.b2z (malformed (val row (other_date f))).
Proof.
  intros Hc Hf Hrow Hm.
  exists (converted_dict row); eexists; exists (converted_cells row);
    exists (after_converted row st).
  split; [apply (make_converted_row_complete row st Hc)|].
  rewrite (converted_dict_date row f Hf), (converted_cells_date row f Hf).
  rewrite (fixed_dates_after row f st Hf).
  rewrite (val_lookup row f _ Hrow).
  assert (clean_date (PyStr s) = PyNone) as ->.
  { simpl. rewrite Hm. now destruct (_ || _). }
  assert (Z.b2z (malformed (PyStr s))
          = if bool_decide (s = sentinel) || blank s then 0 else 1) as ->.
  { simpl. rewrite Hm.
    destruct (bool_decide (s = sentinel)); [reflexivity|].
    now destruct (blank s). }
  auto using loop_body_complete.
Qed.

(** C4, as the code has it: for a row that is converted and for each date
    field, a source value that is not the sentinel, not blank, and whose
    trimmed form the pattern matches is kept as it is, surrounding whitespace
    included; so is, in particular, a value with nothing to trim that the
    pattern matches. *)
Theorem matching_date_is_kept
    (row : dict) (f : str) (s : str) (st : state) :
  complete row = true ->
  In f date_fields ->
  row !! f = Some (PyStr s) ->
  (s <> sentinel /\ blank s = false /\ re_match date_pattern (strip s) = true)
  \/ (strip s = s /\ re_match date_pattern s = true) ->
  exists converted_row st1 cells st2,
    make_converted_row row st = (inr converted_row, st1)
    /\ converted_row !! f = Some (PyStr s)
    /\ loop_body row st = (inr tt, st2)
    /\ outfile st2 = outfile st ++ [cells]
    /\ csv_field cells f = Some s.
Proof.
  intros Hc Hf Hrow Hs.
  assert (s <> sentinel /\ blank s = false
          /\ re_match date_pattern (strip s) = true) as (Hne & Hb & Hm).
  { destruct Hs as [H|[H1 H2]]; [exact H|now apply exact_match_kept]. }
  exists (converted_dict row); eexists; exists (converted_cells row);
    exists (after_converted row st).
  split; [apply (make_converted_row_complete row st Hc)|].
  rewrite (converted_dict_date row f Hf), (converted_cells_date row f Hf).
  rewrite (val_lookup row f _ Hrow), (clean_date_kept s Hne Hb Hm).
  auto using loop_body_complete.
Qed.

(** ** Copied fields and the constant *)

Lemma converted_cells_schema_type (row : dict) :
  csv_field (converted_cells row) (py "schema_type") = Some schema_type.
Proof. reflexivity. Qed.

(** C5: in every row the pass writes after the header, whatever the input
    rows hold, the [schema_type] field is the text ["Terrorist
    Organization"]; so it is in every dictionary the loop body builds. *)
Theorem schema_type_is_constant (rows : list dict) :
  Forall (fun cells =>
            csv_field cells (py "schema_type")
            = Some (py "Terrorist Organization"))
         (tail (outfile (snd (convert_terrorist_csv rows))))
  /\ Forall (fun row =>
               forall st,
                 match make_converted_row row st with
                 | (inr converted_row, _) =>
                     converted_row !! py "schema_type"
                     = Some (PyStr (py "Terrorist Organization"))
                 | (inl _, _) => complete row = false
                 end) rows.
Proof.
  split.
  - unfold convert_terrorist_csv. rewrite for_each_outfile. simpl.
    apply List.Forall_forall. intros cells Hin.
    apply in_map_iff in Hin as (row & <- & _).
    apply converted_cells_schema_type.
  - apply List.Forall_forall. intros row _ st.
    destruct (complete row) eqn:Hc.
    + now rewrite (make_converted_row_complete row st Hc).
    + destruct (incomplete_first_missing row Hc) as (k & Hk & _).
      now rewrite (make_converted_row_incomplete row k st Hk).
Qed.

(** C6: for a row that is converted, [name], [entity_id], [description],
    [aliases] and [data_source_url] reach [organization_name], [external_id],
    [description], [aliases] and [data_source_url] as they are: the converted
    row holds the very value of the source row, and a string is written
    character for character. *)
Theorem copied_fields_verbatim (row : dict) (st : state) :
  complete row = true ->
  exists converted_row st1 cells st2,
    make_converted_row row st = (inr converted_row, st1)
    /\ loop_body row st = (inr tt, st2)
    /\ outfile st2 = outfile st ++ [cells]
    /\ forall src dst,
         In (src, dst) copied_columns ->
         converted_row !! dst = row !! src
         /\ forall s, row !! src = Some (PyStr s) -> csv_field cells dst = Some s.
Proof.
  intros Hc.
  exists (converted_dict row); eexists; exists (converted_cells row);
    exists (after_converted row st).
  split; [apply (make_converted_row_complete row st Hc)|].
  split; [apply (loop_body_complete row st Hc)|].
  split; [reflexivity|].
  intros src dst Hin. split.
  - rewrite (converted_dict_copied row src dst Hin).
    symmetry. apply complete_lookup; eauto using copied_source_key.
  - intros s Hs.
    rewrite (converted_cells_copied row src dst Hin).
    now rewrite (val_lookup row src _ Hs).
Qed.

(** ** Rows that lack a key *)

Lemma missing_incomplete (row : dict) (k : str) :
  In k source_keys -> row !! k = None -> complete row = false.
Proof.
  intros Hin Hk. destruct (complete row) eqn:Hc; [|reflexivity].
  rewrite (complete_lookup row k Hc Hin) in Hk. discriminate.
Qed.

(** C7: a row that lacks one of the seven source keys is skipped: nothing is
    written for it and no counter moves; one warning is printed, made of the
    text of line 88, of the row's [entity_id] as it stands ([None] for a
    cell that holds [None], [unknown] when the key is absent), of a colon
    and of the quoted name of the first key found missing; the loop goes on
    with the rows that follow, and the pass ends without an exception. *)
Theorem missing_key_skips_row
    (row : dict) (k0 : str) (rows : list dict) (st : state) :
  In k0 source_keys ->
  row !! k0 = None ->
  exists k,
    In k source_keys /\ row !! k = None
    /\ loop_body row st
       = (inr tt,
          State (outfile st) (converted_rows st) (fixed_dates st)
                (stdout st ++
                 [[0x26A0; 0xFE0F; 32; 32; 0x8DF3; 0x8FC7; 0x884C; 32]%N
                  ++ match row !! py "entity_id" with
                     | Some (PyStr entity_id) => entity_id
                     | Some PyNone => py "None"
                     | None => py "unknown"
                     end
                  ++ py ": '" ++ k ++ py "'"]))
    /\ for_each loop_body (row :: rows) st
       = for_each loop_body rows (snd (loop_body row st))
    /\ fst (for_each loop_body (row :: rows) st) = inr tt.
Proof.
  intros Hin Hk0.
  pose proof (missing_incomplete row k0 Hin Hk0) as Hc.
  destruct (incomplete_first_missing row Hc) as (k & Hk & Hkin & Hknone).
  exists k. repeat split; try assumption.
  - rewrite (loop_body_incomplete row k st Hk).
    unfold after_skipped, warning, dict_get.
    now destruct (row !! py "entity_id") as [[|entity_id]|].
  - apply for_each_cons.
  - apply for_each_returns.
Qed.

(** ** The whole pass *)

(** C8: the pass ends normally; after the header it has written one row per
    input row that has the seven keys, in the order of the input;
    [converted_rows] is the number of rows written, and that number and the
    number of input rows lacking a key add up to the number of input rows. *)
Theorem one_output_row_per_complete_row (rows : list dict) :
  let result := convert_terrorist_csv rows in
  fst result = inr tt
  /\ outfile (snd result)
     = fieldnames :: List.map converted_cells (List.filter complete rows)
  /\ converted_rows (snd result)
     = Z.of_nat (length (tail (outfile (snd result))))
  /\ (length (tail (outfile (snd result)))
      + length (List.filter (fun row => negb (complete row)) rows)
      = length rows)%nat.
Proof.
  cbv zeta. unfold convert_terrorist_csv.
  rewrite for_each_outfile, for_each_converted_rows. simpl.
  rewrite length_map.
  repeat split.
  - apply for_each_returns.
  - apply filter_split_length.
Qed.

(** ** The sentinel comparison *)

Lemma lower_n (c : N) : ascii_lower c = 110%N -> c = 78%N \/ c = 110%N.
Proof.
  unfold ascii_lower. destruct (_ && _)%N; intros H; lia.
Qed.

(** A string that trims to the sentinel, or that is the sentinel up to the
    case of its letters, is not blank and its trimmed form is not a date. *)
Lemma sentinel_variant (s : str) :
  strip s = sentinel \/ List.map ascii_lower s = List.map ascii_lower sentinel ->
  blank s = false /\ re_match date_pattern (strip s) = false.
Proof.
  intros [H|H].
  - split.
    + destruct (blank s) eqn:Hb; [|reflexivity].
      rewrite (strip_blank s Hb) in H. discriminate.
    + rewrite H. apply re_match_sentinel.
  - destruct s as [|c t]; [discriminate|].
    injection H as Hc _. apply lower_n in Hc.
    assert (isspace c = false /\ isdecimal c = false) as [Hsp Hd].
    { destruct Hc as [->| ->]; split; reflexivity. }
    split; [now apply blank_cons_false|].
    destruct (strip_head c t Hsp) as [t' ->].
    now apply re_match_head.
Qed.

(** C9: the comparison with the sentinel is equality of the value as read.
    A value that is the sentinel only once trimmed, or only up to case, is
    left alone by lines 71-75 and then set to [None] by the format check,
    which counts it; the sentinel itself is set to [None] by lines 71-75 and
    the format check then neither changes nor counts it. *)
Theorem sentinel_comparison_is_exact
    (f : str) (d d0 : dict) (s : str) (st : state) :
  d !! f = Some (PyStr s) ->
  s <> sentinel ->
  strip s = sentinel \/ List.map ascii_lower s = List.map ascii_lower sentinel ->
  d0 !! f = Some (PyStr sentinel) ->
  (null_unreviewed f d st = (inr d, st)
   /\ validate_date f d st
      = (inr (<[f := PyNone]> d),
         State (outfile st) (converted_rows st) (fixed_dates st + 1)
               (stdout st)))
  /\ (null_unreviewed f d0 st = (inr (<[f := PyNone]> d0), st)
      /\ validate_date f (<[f := PyNone]> d0) st
         = (inr (<[f := PyNone]> d0), st)).
Proof.
  intros Hd Hne Hvar Hd0.
  destruct (sentinel_variant s Hvar) as [Hb Hm].
  repeat split.
  - rewrite (null_unreviewed_spec f d _ st Hd). simpl.
    rewrite (bool_decide_eq_false_2 _ Hne), Hb. simpl.
    now rewrite (insert_id d f _ Hd).
  - rewrite (validate_date_spec f d _ st Hd). simpl.
    now rewrite Hb, Hm.
  - now rewrite (null_unreviewed_spec f d0 _ st Hd0).
  - rewrite (validate_date_spec f _ PyNone st (lookup_insert_eq d0 f PyNone)).
    simpl. now rewrite state_eta, insert_insert_eq.
Qed.

(** ** Dates and skipping *)

Lemma complete_insert (row : dict) (k : str) (v : value) :
  complete row = true -> complete (<[k := v]> row) = true.
Proof.
  unfold complete. rewrite !forallb_forall. intros H k' Hk'.
  specialize (H k' Hk'). apply bool_decide_eq_true in H.
  apply bool_decide_eq_true.
  destruct (decide (k = k')) as [->|Hne].
  - rewrite lookup_insert_eq. eauto.
  - now rewrite lookup_insert_ne.
Qed.

(** C10: a row that has the seven keys is written whatever its two date
    fields hold: with any values put in their place, the loop body appends
    one row, adds one to [converted_rows] and prints nothing. A row for which
    the loop body writes nothing lacks one of the seven keys. *)
Theorem dates_never_drop_a_row (row : dict) (st : state) :
  (complete row = true ->
   forall published_date updated_date : value,
     exists cells n,
       loop_body
         (<[py "published_date" := published_date]>
            (<[py "updated_date" := updated_date]> row)) st
       = (inr tt,
          State (outfile st ++ [cells]) (converted_rows st + 1) n (stdout st)))
  /\ (outfile (snd (loop_body row st)) = outfile st ->
      exists k, In k source_keys /\ row !! k = None).
Proof.
  split.
  - intros Hc p u. eexists. eexists.
    rewrite loop_body_complete by now do 2 apply complete_insert.
    reflexivity.
  - intros Hout. destruct (complete row) eqn:Hc.
    + rewrite (loop_body_complete row st Hc) in Hout. simpl in Hout.
      apply (f_equal (@length _)) in Hout. rewrite length_app in Hout.
      simpl in Hout. lia.
    + destruct (incomplete_first_missing row Hc) as (k & _ & Hin & Hk).
      eauto.
Qed.

(** ** More on trimming and on the pattern *)

Lemma lstrip_first (s : str) (c : N) (t : str) :
  lstrip s = c :: t -> isspace c = false.
Proof.
  induction s as [|c0 s IH]; simpl; [discriminate|].
  destruct (isspace c0) eqn:Hc0; [exact IH|].
  intros H. injection H as <- _. exact Hc0.
Qed.

Lemma lstrip_fixed (c : N) (t : str) :
  isspace c = false -> lstrip (c :: t) = c :: t.
Proof. intros Hc. simpl. now rewrite Hc. Qed.

Lemma lstrip_split (s : str) :
  exists a, s = a ++ lstrip s /\ blank a = true.
Proof.
  induction s as [|c s (a & Ha & Hb)]; simpl.
  - now exists [].
  - destruct (isspace c) eqn:Hc.
    + exists (c :: a). simpl. rewrite Hc, Hb. split; [congruence|reflexivity].
    + now exists [].
Qed.

Lemma rstrip_last (s : str) (c : N) :
  last (rstrip s) = Some c -> isspace c = false.
Proof.
  induction s as [|c0 s IH]; simpl; [discriminate|].
  destruct (rstrip s) as [|r rs] eqn:Hr.
  - destruct (isspace c0) eqn:Hc0; simpl; [discriminate|].
    intros H. injection H as <-. exact Hc0.
  - exact IH.
Qed.

Lemma rstrip_split (s : str) :
  exists b, s = rstrip s ++ b /\ blank b = true.
Proof.
  induction s as [|c s (b & Hb & Hbl)]; simpl.
  - now exists [].
  - destruct (rstrip s) as [|r rs] eqn:Hr; simpl in Hb.
    + destruct (isspace c) eqn:Hc.
      * exists (c :: b). simpl. rewrite Hc, Hbl. split; [congruence|reflexivity].
      * exists b. simpl. split; [congruence|assumption].
    + exists b. split; [|assumption]. simpl. f_equal. exact Hb.
Qed.

Lemma rstrip_fixed (s : str) (c : N) :
  last s = Some c -> isspace c = false -> rstrip s = s.
Proof.
  induction s as [|c0 s IH]; simpl; [reflexivity|].
  intros Hl Hc. destruct s as [|c1 s].
  - simpl in *. injection Hl as ->. now rewrite Hc.
  - rewrite (IH Hl Hc). reflexivity.
Qed.

Lemma rstrip_first (c : N) (t : str) :
  isspace c = false -> exists r, rstrip (c :: t) = c :: r.
Proof. intros Hc. simpl. destruct (rstrip t); rewrite ?Hc; eauto. Qed.

Lemma strip_first (s : str) (c : N) (t : str) :
  strip s = c :: t -> isspace c = false.
Proof.
  unfold strip. destruct (lstrip s) as [|c0 u] eqn:Hl; [discriminate|].
  pose proof (lstrip_first s c0 u Hl) as Hc0.
  destruct (rstrip_first c0 u Hc0) as [r ->].
  intros H. injection H as <- _. exact Hc0.
Qed.

Lemma strip_last (s : str) (c : N) :
  last (strip s) = Some c -> isspace c = false.
Proof. apply rstrip_last. Qed.

Lemma strip_fixed (s : str) (c d : N) :
  head s = Some c -> last s = Some d ->
  isspace c = false -> isspace d = false -> strip s = s.
Proof.
  intros Hh Hl Hc Hd. destruct s as [|c0 t]; [discriminate|].
  injection Hh as ->. unfold strip.
  rewrite (lstrip_fixed c t Hc). now apply (rstrip_fixed _ d).
Qed.

Lemma date_shape_match (s : str) :
  date_shape s = true -> re_match date_pattern s = true.
Proof.
  unfold date_shape.
  do 11 (destruct s as [|? s]; try discriminate).
  rewrite !andb_true_iff.
  intros (((((((((H1 & H2) & H3) & H4) & H5) & H6) & H7) & H8) & H9) & H10).
  apply N.eqb_eq in H5, H8. subst.
  unfold re_match. simpl. now rewrite H1, H2, H3, H4, H6, H7, H9, H10.
Qed.

Lemma match_date_shape (s : str) :
  re_match date_pattern s = true ->
  date_shape s = true \/ exists t, s = t ++ [10%N] /\ date_shape t = true.
Proof.
  unfold re_match, date_pattern. cbn [match_here take_digits Nat.eqb andb].
  repeat match goal with
  | |- context [match ?s with [] => _ | _ :: _ => _ end] =>
      is_var s; destruct s as [|? s]; try (intros; discriminate)
  | |- context [if isdecimal ?c then _ else _] =>
      destruct (isdecimal c) eqn:?; try (intros; discriminate)
  | |- context [N.eqb 45 ?c] =>
      destruct (N.eqb_spec 45 c); [subst|intros; discriminate]; cbn [andb]
  end.
  all: try (intros H; discriminate H).
  rewrite andb_true_r. intros H. apply orb_true_iff in H as [H|H];
    apply bool_decide_eq_true in H; subst s.
  - left. unfold date_shape.
    repeat match goal with E : isdecimal _ = true |- _ => rewrite E; clear E end.
    reflexivity.
  - right. exists [n; n0; n1; n2; 45%N; n4; n5; 45%N; n7; n8].
    split; [reflexivity|]. unfold date_shape.
    repeat match goal with E : isdecimal _ = true |- _ => rewrite E; clear E end.
    reflexivity.
Qed.

(** On a trimmed text the pattern is the shape: the newline that [$] lets
    through is whitespace, so trimming has removed it. *)
Lemma re_match_strip (s : str) :
  re_match date_pattern (strip s) = date_shape (strip s).
Proof.
  destruct (date_shape (strip s)) eqn:Hs.
  - now apply date_shape_match.
  - destruct (re_match date_pattern (strip s)) eqn:Hm; [|reflexivity].
    apply match_date_shape in Hm as [Hm|(t & Ht & _)]; [congruence|].
    assert (last (strip s) = Some 10%N) as Hl by (rewrite Ht; apply last_snoc).
    apply strip_last in Hl. discriminate.
Qed.

Lemma date_shape_not_blank (s : str) :
  date_shape (strip s) = true -> s <> sentinel /\ blank s = false.
Proof.
  intros H. split.
  - intros ->. discriminate.
  - destruct (blank s) eqn:Hb; [|reflexivity].
    rewrite (strip_blank s Hb) in H. discriminate.
Qed.

Lemma clean_date_shape (s : str) :
  clean_date (PyStr s) = if date_shape (strip s) then PyStr s else PyNone.
Proof.
  simpl. rewrite re_match_strip.
  destruct (date_shape (strip s)) eqn:Hs.
  - destruct (date_shape_not_blank s Hs) as [Hne Hb].
    now rewrite (bool_decide_eq_false_2 _ Hne), Hb.
  - now destruct (_ || _).
Qed.

(** ** More on the pass *)

Lemma complete_first_missing (row : dict) :
  complete row = true -> first_missing row = None.
Proof.
  intros Hc. destruct (first_missing row) as [k|] eqn:Hk; [|reflexivity].
  unfold first_missing in Hk. apply find_some in Hk as [Hin Hk].
  rewrite (complete_lookup row k Hc Hin), has_key_Some in Hk. discriminate.
Qed.

Lemma warning_of_complete (row : dict) :
  complete row = true -> warning_of row = [].
Proof. intros Hc. unfold warning_of. now rewrite complete_first_missing. Qed.

(** The state the loop reaches from [st]. *)
Lemma for_each_state (rows : list dict) (st : state) :
  for_each loop_body rows st
  = (inr tt,
     State (outfile st ++ List.map converted_cells (List.filter complete rows))
           (converted_rows st + Z.of_nat (length (List.filter complete rows)))
           (fixed_dates st + sum (List.map fixed_in (List.filter complete rows)))
           (stdout st ++ flat_map warning_of rows)).
Proof.
  revert st. induction rows as [|row rows IH]; intros st.
  - simpl. rewrite !app_nil_r, !Z.add_0_r. now destruct st.
  - change (for_each loop_body (row :: rows) st)
      with (bind (loop_body row) (fun _ => for_each loop_body rows) st).
    cbn [List.filter flat_map]. destruct (complete row) eqn:Hc.
    + rewrite (bind_inr _ _ _ _ _ (loop_body_complete row st Hc)), IH.
      rewrite (warning_of_complete row Hc). unfold after_converted, fixed_in, sum.
      cbn [outfile converted_rows fixed_dates stdout List.map length fold_right app].
      rewrite <- app_assoc. f_equal. f_equal; [rewrite Nat2Z.inj_succ|]; ring.
    + destruct (incomplete_first_missing row Hc) as (k & Hk & _).
      rewrite (bind_inr _ _ _ _ _ (loop_body_incomplete row k st Hk)), IH.
      unfold after_skipped, warning_of. rewrite Hk.
      cbn [outfile converted_rows fixed_dates stdout].
      now rewrite <- app_assoc.
Qed.

Lemma fixed_in_range (row : dict) : 0 <= fixed_in row <= 2.
Proof. unfold fixed_in. do 2 destruct (malformed _); simpl; lia. Qed.

Lemma sum_fixed_in_range (rows : list dict) :
  0 <= sum (List.map fixed_in rows) <= 2 * Z.of_nat (length rows).
Proof.
  induction rows as [|row rows IH]; [simpl; lia|].
  pose proof (fixed_in_range row) as Hr. unfold sum in *.
  cbn [List.map fold_right length]. rewrite Nat2Z.inj_succ.
  generalize dependent (fixed_in row).
  generalize dependent (fold_right Z.add 0 (List.map fixed_in rows)).
  intros. lia.
Qed.

Lemma filter_app_complete (rows1 rows2 : list dict) :
  List.filter complete (rows1 ++ rows2)
  = List.filter complete rows1 ++ List.filter complete rows2.
Proof. apply List.filter_app. Qed.

Lemma sum_app (l1 l2 : list Z) : sum (l1 ++ l2) = sum l1 + sum l2.
Proof.
  induction l1 as [|x l1 IH]; [reflexivity|].
  unfold sum in *. cbn [app fold_right]. rewrite IH. ring.
Qed.

Lemma date_shape_match_newline (t : str) :
  date_shape t = true -> re_match date_pattern (t ++ [10%N]) = true.
Proof.
  unfold date_shape.
  do 11 (destruct t as [|? t]; try discriminate).
  rewrite !andb_true_iff.
  intros (((((((((H1 & H2) & H3) & H4) & H5) & H6) & H7) & H8) & H9) & H10).
  apply N.eqb_eq in H5, H8. subst.
  unfold re_match. simpl. now rewrite H1, H2, H3, H4, H6, H7, H9, H10.
Qed.

Lemma strip_idempotent (s : str) : strip (strip s) = strip s.
Proof.
  destruct (strip s) as [|c t] eqn:Hs; [reflexivity|].
  pose proof (strip_first s c t Hs) as Hc.
  destruct (last (c :: t)) as [d|] eqn:Hl.
  - apply (strip_fixed _ c d); try assumption; [reflexivity|].
    apply (strip_last s). now rewrite Hs.
  - destruct t; simpl in Hl; [discriminate|].
    apply last_None in Hl. discriminate.
Qed.

(** ** What the script accepts as a date *)

(** X1: trimming takes a blank prefix and a blank suffix off the string and
    nothing else; what is left neither starts nor ends with whitespace, and
    trimming it again changes nothing. *)
Theorem strip_takes_blank_ends_off (s : str) :
  (exists a b, s = a ++ strip s ++ b /\ blank a = true /\ blank b = true)
  /\ (forall c t, strip s = c :: t -> isspace c = false)
  /\ (forall c, last (strip s) = Some c -> isspace c = false)
  /\ strip (strip s) = strip s.
Proof.
  repeat split.
  - destruct (lstrip_split s) as (a & Ha & Hab).
    destruct (rstrip_split (lstrip s)) as (b & Hb & Hbb).
    exists a, b. unfold strip. now rewrite <- Hb.
  - apply strip_first.
  - apply strip_last.
  - apply strip_idempotent.
Qed.

(** X2: the pattern of line 80 matches the strings made of four digits, a
    hyphen, two digits, a hyphen and two digits, and those strings followed
    by one newline; on a trimmed string it matches the ten-character shape
    only. *)
Theorem date_pattern_is_the_shape (s : str) :
  (re_match date_pattern s = true <->
   date_shape s = true \/ exists t, s = t ++ [10%N] /\ date_shape t = true)
  /\ re_match date_pattern (strip s) = date_shape (strip s).
Proof.
  split; [split|].
  - apply match_date_shape.
  - intros [H|(t & -> & H)].
    + now apply date_shape_match.
    + now apply date_shape_match_newline.
  - apply re_match_strip.
Qed.

(** X3: in every row the pass writes, each of the two date fields is empty
    or, once trimmed, has the ten-character shape of the pattern. *)
Theorem written_dates_are_well_formed (rows : list dict) :
  Forall (fun cells =>
            Forall (fun f =>
                      exists c, csv_field cells f = Some c
                                /\ (c = [] \/ date_shape (strip c) = true))
                   date_fields)
         (tail (outfile (snd (convert_terrorist_csv rows)))).
Proof.
  unfold convert_terrorist_csv. rewrite for_each_state.
  cbn [snd outfile initial app tail].
  apply List.Forall_forall. intros cells Hin.
  apply in_map_iff in Hin as (row & <- & _).
  apply List.Forall_forall. intros f Hf.
  rewrite (converted_cells_date row f Hf).
  eexists. split; [reflexivity|].
  destruct (val row f) as [|s]; [now left|].
  rewrite clean_date_shape.
  destruct (date_shape (strip s)) eqn:Hs; [now right|now left].
Qed.

(** X4: for a row that is converted, what is written in a date field that
    held the string [s] depends on the shape of the trimmed [s] alone: [s]
    itself when the trimmed [s] has the shape, the empty field otherwise. *)
Theorem date_field_decided_by_shape
    (row : dict) (f : str) (s : str) (st : state) :
  complete row = true ->
  In f date_fields ->
  row !! f = Some (PyStr s) ->
  exists cells st2,
    loop_body row st = (inr tt, st2)
    /\ outfile st2 = outfile st ++ [cells]
    /\ csv_field cells f = Some (if date_shape (strip s) then s else []).
Proof.
  intros Hc Hf Hrow.
  exists (converted_cells row), (after_converted row st).
  split; [apply (loop_body_complete row st Hc)|].
  split; [reflexivity|].
  rewrite (converted_cells_date row f Hf), (val_lookup row f _ Hrow).
  rewrite clean_date_shape. now destruct (date_shape (strip s)).
Qed.

(** X5: the format check looks at no calendar: whatever the eight ASCII
    digits are, a date field that holds them in the shape of the pattern is
    written as it is and adds nothing to [fixed_dates]: neither lines 71-75
    nor the check of that field change anything, and the row adds to the
    counter only what its other date field adds. *)
Theorem ascii_date_passes_unchecked
    (row : dict) (f : str) (y1 y2 y3 y4 m1 m2 d1 d2 : N) (st : state) :
  complete row = true ->
  In f date_fields ->
  Forall (fun c => ascii_isdigit c = true) [y1; y2; y3; y4; m1; m2; d1; d2] ->
  row !! f = Some (PyStr [y1; y2; y3; y4; 45%N; m1; m2; 45%N; d1; d2]) ->
  (exists cells st2,
     loop_body row st = (inr tt, st2)
     /\ outfile st2 = outfile st ++ [cells]
     /\ csv_field cells f = Some [y1; y2; y3; y4; 45%N; m1; m2; 45%N; d1; d2]
     /\ fixed_dates st2
        = fixed_dates st + Z.b2z (malformed (val row (other_date f))))
  /\ (forall (d : dict) (st0 : state),
        d !! f = Some (PyStr [y1; y2; y3; y4; 45%N; m1; m2; 45%N; d1; d2]) ->
        null_unreviewed f d st0 = (inr d, st0)
        /\ validate_date f d st0 = (inr d, st0)).
Proof.
  intros Hc Hf Hd Hrow.
  assert (forall c, ascii_isdigit c = true ->
                    isdecimal c = true /\ isspace c = false) as Hdigit.
  { intros c H. unfold ascii_isdigit in H. apply andb_true_iff in H as [H1 H2].
    apply N.leb_le in H1, H2. unfold isdecimal, isspace.
    assert ((c <? 128)%N = true) as -> by (apply N.ltb_lt; lia).
    unfold ascii_isdigit, ascii_isspace. split.
    - apply andb_true_iff. split; apply N.leb_le; lia.
    - apply orb_false_iff.
      split; apply andb_false_iff; right; apply N.leb_gt; lia. }
  repeat match goal with
  | H : Forall _ (_ :: _) |- _ => apply Forall_cons_1 in H as [?%Hdigit H]
  end.
  repeat match goal with H : _ /\ _ |- _ => destruct H end.
  set (s := [y1; y2; y3; y4; 45%N; m1; m2; 45%N; d1; d2]) in *.
  assert (strip s = s) as Hstrip
    by (apply (strip_fixed s y1 d2); try reflexivity; assumption).
  assert (date_shape (strip s) = true) as Hshape.
  { rewrite Hstrip. unfold s, date_shape.
    repeat match goal with E : isdecimal _ = true |- _ => rewrite E; clear E end.
    reflexivity. }
  destruct (date_shape_not_blank s Hshape) as [Hne Hb].
  assert (malformed (PyStr s) = false) as Hmal.
  { cbn [malformed]. rewrite re_match_strip, Hshape. now rewrite andb_false_r. }
  split.
  - exists (converted_cells row), (after_converted row st).
    split; [apply (loop_body_complete row st Hc)|].
    split; [reflexivity|].
    rewrite (converted_cells_date row f Hf), (fixed_dates_after row f st Hf).
    rewrite (val_lookup row f _ Hrow), clean_date_shape, Hshape, Hmal.
    split; [reflexivity|]. simpl. ring.
  - intros d st0 Hd0. split.
    + rewrite (null_unreviewed_spec f d _ st0 Hd0). cbn [nulled].
      rewrite (bool_decide_eq_false_2 _ Hne), Hb. cbn [orb].
      now rewrite (insert_id d f _ Hd0).
    + rewrite (validate_date_spec f d _ st0 Hd0). cbn [checked rejected].
      rewrite Hb, re_match_strip, Hshape. cbn [negb andb Z.b2z].
      now rewrite state_eta, (insert_id d f _ Hd0).
Qed.

(** ** Counters, warnings and rows of the pass *)

(** X6: at the end of the pass [fixed_dates] is the number of malformed
    date values of the rows that were converted; the dates of skipped rows
    are not counted, and the counter is at most twice [converted_rows]. *)
Theorem fixed_dates_accounting (rows : list dict) :
  let st := snd (convert_terrorist_csv rows) in
  fixed_dates st = sum (List.map fixed_in (List.filter complete rows))
  /\ 0 <= fixed_dates st <= 2 * converted_rows st.
Proof.
  cbv zeta. unfold convert_terrorist_csv. rewrite for_each_state.
  cbn [snd fixed_dates converted_rows initial].
  pose proof (sum_fixed_in_range (List.filter complete rows)) as H.
  split; [ring|]. lia.
Qed.

(** X7: the pass prints one warning per row that lacks a source key and
    nothing else, in the order of the input, each naming the first key the
    row lacks in the order [name], [entity_id], [description], [aliases],
    [published_date], [updated_date], [data_source_url]; every input row is
    either counted in [converted_rows] or warned about. *)
Theorem one_warning_per_skipped_row (rows : list dict) :
  let st := snd (convert_terrorist_csv rows) in
  stdout st = flat_map warning_of rows
  /\ Z.of_nat (length (stdout st)) + converted_rows st
     = Z.of_nat (length rows)
  /\ Forall (fun row =>
               if complete row then warning_of row = []
               else exists k before after,
                      warning_of row = [warning row (KeyError k)]
                      /\ source_keys = before ++ k :: after
                      /\ row !! k = None
                      /\ Forall (fun k' => is_Some (row !! k')) before) rows.
Proof.
  cbv zeta. unfold convert_terrorist_csv. rewrite for_each_state.
  cbn [snd stdout converted_rows initial app].
  split; [reflexivity|]. split.
  - induction rows as [|row rows IH]; [reflexivity|].
    cbn [flat_map List.filter length]. rewrite length_app.
    destruct (complete row) eqn:Hc.
    + rewrite (warning_of_complete row Hc). cbn [length]. lia.
    + destruct (incomplete_first_missing row Hc) as (k & Hk & _).
      unfold warning_of at 1. rewrite Hk. cbn [length]. lia.
  - apply List.Forall_forall. intros row _.
    destruct (complete row) eqn:Hc; [now apply warning_of_complete|].
    destruct (incomplete_first_missing row Hc) as (k & Hk & _ & Hnone).
    unfold warning_of. rewrite Hk. unfold first_missing in Hk.
    exists k.
    assert (exists before after,
              source_keys = before ++ k :: after
              /\ Forall (fun k' => is_Some (row !! k')) before)
      as (before & after & Hsplit & Hbefore).
    { revert Hk. generalize source_keys. intros l.
      induction l as [|k0 l IH]; [discriminate|]. cbn [List.find].
      destruct (row !! k0) as [v|] eqn:Hk0.
      - rewrite has_key_Some. cbn [negb]. intros Hk.
        destruct (IH Hk) as (before & after & -> & Hb).
        exists (k0 :: before), after. split; [reflexivity|].
        constructor; [eauto|assumption].
      - rewrite has_key_None. cbn [negb]. intros [= <-].
        exists [], l. split; [reflexivity|constructor]. }
    exists before, after. auto.
Qed.

(** X8: the pass over two lists of rows put end to end writes the rows of
    the first pass and then those of the second, its two counters are the
    sums of theirs, and its warnings are theirs in that order. *)
Theorem pass_composes (rows1 rows2 : list dict) :
  let st1 := snd (convert_terrorist_csv rows1) in
  let st2 := snd (convert_terrorist_csv rows2) in
  let st := snd (convert_terrorist_csv (rows1 ++ rows2)) in
  outfile st = outfile st1 ++ tail (outfile st2)
  /\ converted_rows st = converted_rows st1 + converted_rows st2
  /\ fixed_dates st = fixed_dates st1 + fixed_dates st2
  /\ stdout st = stdout st1 ++ stdout st2.
Proof.
  cbv zeta. unfold convert_terrorist_csv. rewrite !for_each_state.
  cbn [snd outfile converted_rows fixed_dates stdout initial app tail].
  rewrite filter_app_complete, !List.map_app, sum_app, length_app,
    flat_map_app, Nat2Z.inj_add.
  repeat split; ring.
Qed.

(** X9: every row of the output, the header included, has eight cells, and
    each of the eight field names finds its cell in it. *)
Theorem written_rows_have_eight_cells (rows : list dict) :
  Forall (fun cells =>
            length cells = 8%nat
            /\ Forall (fun k => is_Some (csv_field cells k)) fieldnames)
         (outfile (snd (convert_terrorist_csv rows))).
Proof.
  unfold convert_terrorist_csv. rewrite for_each_state.
  cbn [snd outfile initial app].
  constructor.
  - split; [reflexivity|]. repeat constructor; eexists; reflexivity.
  - apply List.Forall_forall. intros cells Hin.
    apply in_map_iff in Hin as (row & <- & _).
    split; [reflexivity|]. repeat constructor; eexists; reflexivity.
Qed.

(** X10: a source key that holds [None], as the reader gives for the
    columns a short line does not reach, neither raises nor is counted: the
    row is written, with an empty field in the column of that key, and
    [fixed_dates] grows by what the date fields other than that key add. *)
Theorem none_is_written_empty (row : dict) (k : str) (st : state) :
  complete row = true ->
  In k source_keys ->
  row !! k = Some PyNone ->
  exists cells st2,
    loop_body row st = (inr tt, st2)
    /\ outfile st2 = outfile st ++ [cells]
    /\ csv_field cells (target_column k) = Some []
    /\ fixed_dates st2 = fixed_dates st + counted_elsewhere row k.
Proof.
  intros Hc Hk Hrow.
  exists (converted_cells row), (after_converted row st).
  split; [apply (loop_body_complete row st Hc)|].
  split; [reflexivity|].
  pose proof (val_lookup row k _ Hrow) as Hv.
  unfold converted_cells, after_converted, counted_elsewhere.
  cbn [fixed_dates].
  repeat (destruct Hk as [<-|Hk];
          [rewrite ?Hv; split; [reflexivity|];
           cbn [malformed Z.b2z]; unfold sum; simpl; ring|]).
  destruct Hk.
Qed.

(** X11: when the [try] block raises, it has written nothing, counted
    nothing and printed nothing, and the exception is the [KeyError] of the
    first source key the row lacks; it raises no other exception. *)
Theorem try_block_raises_only_key_error
    (row : dict) (st st' : state) (e : exn) :
  try_block row st = (inl e, st') ->
  st' = st
  /\ exists k, e = KeyError k /\ first_missing row = Some k
               /\ In k source_keys /\ row !! k = None.
Proof.
  intros H. destruct (complete row) eqn:Hc.
  - rewrite (try_block_complete row st Hc) in H. discriminate.
  - destruct (incomplete_first_missing row Hc) as (k & Hk & Hin & Hnone).
    unfold try_block in H.
    rewrite (bind_inl _ _ _ _ _ (make_converted_row_incomplete row k st Hk)) in H.
    injection H as <- <-. eauto 6.
Qed.

(** ** The preview, the function as called, and [main] *)

Lemma print_printed (line : str) (st : state) :
  print line st = (inr tt, printed [line] st).
Proof. reflexivity. Qed.

Lemma printed_printed (l1 l2 : list str) (st : state) :
  printed l2 (printed l1 st) = printed (l1 ++ l2) st.
Proof. unfold printed. simpl. now rewrite <- app_assoc. Qed.

Lemma printed_nil (st : state) : printed [] st = st.
Proof. unfold printed. rewrite app_nil_r. now destruct st. Qed.

Lemma previewable_lookup (row : dict) (k : str) :
  previewable row = true -> In k preview_keys -> row !! k = Some (val row k).
Proof.
  unfold previewable. rewrite forallb_forall. intros H Hk.
  specialize (H k Hk). apply bool_decide_eq_true in H as [v Hv].
  unfold val, dict_get. now rewrite Hv.
Qed.

Lemma preview_loop_stop (i : nat) (rows : list dict) (st : state) :
  (2 <= i)%nat -> preview_loop i rows st = (inr tt, st).
Proof.
  intros Hi. destruct rows as [|row rows]; [reflexivity|]. cbn [preview_loop].
  now apply Nat.leb_le in Hi as ->.
Qed.

Lemma preview_loop_row (i : nat) (row : dict) (rows : list dict) (st : state) :
  (i < 2)%nat ->
  previewable row = true ->
  preview_loop i (row :: rows) st
  = preview_loop (S i) rows (printed (preview_lines i row) st).
Proof.
  intros Hi Hp. cbn [preview_loop].
  apply Nat.leb_gt in Hi as ->.
  rewrite (bind_inr _ _ _ _ _ (print_printed _ st)).
  repeat
    (erewrite bind_getitem
       by (apply (previewable_lookup row); [exact Hp|simpl; tauto]);
     erewrite (bind_inr (print _)) by apply print_printed;
     rewrite printed_printed).
  reflexivity.
Qed.

Lemma preview_loop_ok (rows : list dict) (st : state) :
  Forall (fun row => previewable row = true) (firstn 2 rows) ->
  preview_loop 0 rows st
  = (inr tt, printed (preview_output 0 (firstn 2 rows)) st).
Proof.
  intros H. destruct rows as [|r1 rows].
  - simpl. now rewrite printed_nil.
  - cbn [firstn] in H. apply Forall_cons_1 in H as [H1 H].
    rewrite (preview_loop_row 0 r1 rows st) by (lia || assumption).
    destruct rows as [|r2 rows].
    + cbn [firstn preview_output preview_loop]. now rewrite app_nil_r.
    + cbn [firstn] in H. apply Forall_cons_1 in H as [H2 _].
      rewrite (preview_loop_row 1 r2 rows _) by (lia || assumption).
      rewrite preview_loop_stop by lia. rewrite printed_printed.
      cbn [firstn preview_output]. now rewrite app_nil_r.
Qed.

(** X12: the preview looks at the first two rows it is given and at no
    other, whatever the comment of line 100 says of three: it runs as it
    would on those two alone, and when they have the five keys it makes six
    calls of [print] for each, twelve at most, the first text of a row
    starting with a line feed, and returns. *)
Theorem preview_shows_two_rows (rows : list dict) (st : state) :
  preview_loop 0 rows st = preview_loop 0 (firstn 2 rows) st
  /\ (Forall (fun row => previewable row = true) (firstn 2 rows) ->
      preview_loop 0 rows st
      = (inr tt, printed (preview_output 0 (firstn 2 rows)) st)
      /\ length (preview_output 0 (firstn 2 rows))
         = (6 * Nat.min 2 (length rows))%nat)
  /\ (forall i row, head (preview_lines i row) = Some (msg_row i))
  /\ (forall i, head (msg_row i) = Some 10%N).
Proof.
  split; [|split; [|split; reflexivity]].
  - destruct rows as [|r1 [|r2 [|r3 rows]]]; reflexivity.
  - intros H. split; [now apply preview_loop_ok|].
    destruct rows as [|r1 [|r2 [|r3 rows]]]; reflexivity.
Qed.

(** ** Reading the output back *)





(** The state after the loop of a call, whatever the reader does next. *)
Lemma conversion_loop (rows : list dict) (st : state) :
  bind open_output
    (fun _ => bind writeheader
       (fun _ => bind reset_counters (fun _ => for_each loop_body rows))) st
  = (inr tt,
     State (fieldnames :: List.map converted_cells (List.filter complete rows))
           (Z.of_nat (length (List.filter complete rows)))
           (sum (List.map fixed_in (List.filter complete rows)))
           (stdout st ++ flat_map warning_of rows)).
Proof.
  do 3 (erewrite bind_inr by reflexivity).
  cbn [outfile converted_rows fixed_dates stdout app].
  rewrite for_each_state.
  cbn [outfile converted_rows fixed_dates stdout app Z.add]. reflexivity.
Qed.





End WithTables.

(** ** The theorems at sample rows *)

(** The sample rows are ASCII, so the tables above ASCII play no part in
    them: [ascii_only] stands for both. *)

(** The specification's first scenario. *)
Example scenario_converted :
  convert_terrorist_csv ascii_only ascii_only [scenario_row]
  = (inr tt,
     State [ fieldnames;
             [ py "Group A"; py "T001"; py "Terrorist Organization";
               py "desc"; py "Alias1"; []; py "2020-05-01"; py "http://x" ] ]
           1 0 []).
Proof. vm_compute. reflexivity. Qed.

(** The specification's second scenario: no [entity_id], no output row. *)
Example scenario_dropped :
  convert_terrorist_csv ascii_only ascii_only [no_id_row; scenario_row]
  = (inr tt,
     State [ fieldnames;
             [ py "Group A"; py "T001"; py "Terrorist Organization";
               py "desc"; py "Alias1"; []; py "2020-05-01"; py "http://x" ] ]
           1 0
           [ warning_prefix ++ py "unknown: 'entity_id'" ]).
Proof. vm_compute. reflexivity. Qed.

(** The pattern checks the shape only, and [$] lets one final newline
    through, which trimming removes beforehand. *)
Example date_pattern_examples :
  re_match ascii_only date_pattern (py "2024-13-40") = true
  /\ re_match ascii_only date_pattern (py "2020-5-01") = false
  /\ re_match ascii_only date_pattern (py "2020-05-011") = false
  /\ re_match ascii_only date_pattern (py "2020-05-01" ++ [10%N]) = true
  /\ strip ascii_only ([9%N] ++ py "2020-05-01" ++ [13%N; 10%N])
     = py "2020-05-01".
Proof. repeat split; vm_compute; reflexivity. Qed.

Lemma blank_date_is_null_witness :
  exists converted_row st1 cells st2,
    make_converted_row ascii_only ascii_only scenario_row initial
    = (inr converted_row, st1)
    /\ converted_row !! py "published_date" = Some PyNone
    /\ loop_body ascii_only ascii_only scenario_row initial = (inr tt, st2)
    /\ outfile st2 = outfile initial ++ [cells]
    /\ csv_field cells (py "published_date") = Some [].
Proof.
  apply (blank_date_is_null ascii_only ascii_only scenario_row
           (py "published_date") sentinel initial).
  - vm_compute. reflexivity.
  - simpl. tauto.
  - vm_compute. reflexivity.
  - left. reflexivity.
Defined.

Lemma malformed_date_is_null_and_counted_witness :
  (exists converted_row st1 cells st2,
     make_converted_row ascii_only ascii_only padded_row initial
     = (inr converted_row, st1)
     /\ converted_row !! py "updated_date" = Some PyNone
     /\ loop_body ascii_only ascii_only padded_row initial = (inr tt, st2)
     /\ outfile st2 = outfile initial ++ [cells]
     /\ csv_field cells (py "updated_date") = Some []
     /\ fixed_dates st2
        = fixed_dates initial + 1
          + Z.b2z (malformed ascii_only ascii_only
                     (val padded_row (other_date (py "updated_date")))))
  /\ (forall (d : dict) (st0 : state),
        d !! py "updated_date" = Some (PyStr (py "2020-5-01")) ->
        exists d', validate_date ascii_only ascii_only (py "updated_date") d st0
          = (inr d', State (outfile st0) (converted_rows st0)
                           (fixed_dates st0 + 1) (stdout st0))
          /\ d' !! py "updated_date" = Some PyNone).
Proof.
  apply (malformed_date_is_null_and_counted ascii_only ascii_only padded_row
           (py "updated_date") (py "2020-5-01") initial).
  - vm_compute. reflexivity.
  - simpl. tauto.
  - vm_compute. reflexivity.
  - intros H. vm_compute in H. discriminate.
  - vm_compute. reflexivity.
  - vm_compute. reflexivity.
Defined.

Lemma unmatched_date_is_null_witness :
  exists converted_row st1 cells st2,
    make_converted_row ascii_only ascii_only scenario_row initial
    = (inr converted_row, st1)
    /\ converted_row !! py "published_date" = Some PyNone
    /\ loop_body ascii_only ascii_only scenario_row initial = (inr tt, st2)
    /\ outfile st2 = outfile initial ++ [cells]
    /\ csv_field cells (py "published_date") = Some []
    /\ fixed_dates st2
       = fixed_dates initial
         + (if bool_decide (sentinel = sentinel) || blank ascii_only sentinel
            then 0 else 1)
         + Z.b2z (malformed ascii_only ascii_only
                    (val scenario_row (other_date (py "published_date")))).
Proof.
  apply (unmatched_date_is_null ascii_only ascii_only scenario_row
           (py "published_date") sentinel initial).
  - vm_compute. reflexivity.
  - simpl. tauto.
  - vm_compute. reflexivity.
  - vm_compute. reflexivity.
Defined.

(** C3 as worded fails twice. The sentinel of [scenario_row] does not match
    the pattern, the row's other date is well formed, and [fixed_dates] does
    not move. The first date of [padded_row] does not match the pattern as it
    stands, and it is written, not emptied. *)
Lemma unmatched_date_counterexample :
  (scenario_row !! py "published_date" = Some (PyStr sentinel)
   /\ re_match ascii_only date_pattern sentinel = false
   /\ malformed ascii_only ascii_only (val scenario_row (py "updated_date"))
      = false
   /\ fixed_dates (snd (loop_body ascii_only ascii_only scenario_row initial))
      = fixed_dates initial
   /\ fixed_dates (snd (loop_body ascii_only ascii_only scenario_row initial))
      <> fixed_dates initial + 1)
  /\ (padded_row !! py "published_date" = Some (text " 2020-05-01 ")
      /\ re_match ascii_only date_pattern (py " 2020-05-01 ") = false
      /\ exists cells,
           outfile (snd (loop_body ascii_only ascii_only padded_row initial))
           = outfile initial ++ [cells]
           /\ csv_field cells (py "published_date")
              = Some (py " 2020-05-01 ")
           /\ csv_field cells (py "published_date") <> Some []).
Proof.
  split.
  - repeat split; try (vm_compute; reflexivity).
    vm_compute. discriminate.
  - split; [vm_compute; reflexivity|].
    split; [vm_compute; reflexivity|].
    eexists. split; [vm_compute; reflexivity|].
    split; [vm_compute; reflexivity|].
    vm_compute. discriminate.
Qed.

Lemma matching_date_is_kept_witness :
  exists converted_row st1 cells st2,
    make_converted_row ascii_only ascii_only padded_row initial
    = (inr converted_row, st1)
    /\ converted_row !! py "published_date" = Some (text " 2020-05-01 ")
    /\ loop_body ascii_only ascii_only padded_row initial = (inr tt, st2)
    /\ outfile st2 = outfile initial ++ [cells]
    /\ csv_field cells (py "published_date") = Some (py " 2020-05-01 ").
Proof.
  apply (matching_date_is_kept ascii_only ascii_only padded_row
           (py "published_date") (py " 2020-05-01 ") initial).
  - vm_compute. reflexivity.
  - simpl. tauto.
  - vm_compute. reflexivity.
  - left. split; [|split].
    + intros H. vm_compute in H. discriminate.
    + vm_compute. reflexivity.
    + vm_compute. reflexivity.
Defined.

(** C4 as worded fails: the first date of [padded_row] is neither the
    sentinel nor blank, its trimmed form ["2020-05-01"] matches the pattern,
    and the field written is the value with its blanks, not the trimmed
    one. *)
Lemma matching_date_counterexample :
  padded_row !! py "published_date" = Some (text " 2020-05-01 ")
  /\ py " 2020-05-01 " <> sentinel
  /\ blank ascii_only (py " 2020-05-01 ") = false
  /\ strip ascii_only (py " 2020-05-01 ") = py "2020-05-01"
  /\ re_match ascii_only date_pattern (py "2020-05-01") = true
  /\ exists cells,
       outfile (snd (loop_body ascii_only ascii_only padded_row initial))
       = outfile initial ++ [cells]
       /\ csv_field cells (py "published_date") = Some (py " 2020-05-01 ")
       /\ csv_field cells (py "published_date")
          <> Some (strip ascii_only (py " 2020-05-01 ")).
Proof.
  split; [vm_compute; reflexivity|].
  split; [intros H; vm_compute in H; discriminate|].
  split; [vm_compute; reflexivity|].
  split; [vm_compute; reflexivity|].
  split; [vm_compute; reflexivity|].
  eexists. split; [vm_compute; reflexivity|].
  split; [vm_compute; reflexivity|].
  vm_compute. discriminate.
Qed.

Lemma copied_fields_verbatim_witness :
  exists converted_row st1 cells st2,
    make_converted_row ascii_only ascii_only scenario_row initial
    = (inr converted_row, st1)
    /\ loop_body ascii_only ascii_only scenario_row initial = (inr tt, st2)
    /\ outfile st2 = outfile initial ++ [cells]
    /\ forall src dst,
         In (src, dst) copied_columns ->
         converted_row !! dst = scenario_row !! src
         /\ forall s, scenario_row !! src = Some (PyStr s) ->
                      csv_field cells dst = Some s.
Proof.
  apply (copied_fields_verbatim ascii_only ascii_only scenario_row initial).
  vm_compute. reflexivity.
Defined.

Lemma missing_key_skips_row_witness :
  exists k,
    In k source_keys /\ two_missing_row !! k = None
    /\ loop_body ascii_only ascii_only two_missing_row initial
       = (inr tt,
          State (outfile initial) (converted_rows initial)
                (fixed_dates initial)
                (stdout initial ++
                 [[0x26A0; 0xFE0F; 32; 32; 0x8DF3; 0x8FC7; 0x884C; 32]%N
                  ++ match two_missing_row !! py "entity_id" with
                     | Some (PyStr entity_id) => entity_id
                     | Some PyNone => py "None"
                     | None => py "unknown"
                     end
                  ++ py ": '" ++ k ++ py "'"]))
    /\ for_each (loop_body ascii_only ascii_only)
         (two_missing_row :: [scenario_row]) initial
       = for_each (loop_body ascii_only ascii_only) [scenario_row]
           (snd (loop_body ascii_only ascii_only two_missing_row initial))
    /\ fst (for_each (loop_body ascii_only ascii_only)
              (two_missing_row :: [scenario_row]) initial) = inr tt.
Proof.
  apply (missing_key_skips_row ascii_only ascii_only two_missing_row
           (py "aliases") [scenario_row] initial).
  - simpl. tauto.
  - vm_compute. reflexivity.
Defined.

(** The warning for a row that has its [entity_id] and lacks [name] and
    [aliases]: the identifier as it stands, and the first missing key. *)
Example skipped_row_warning :
  loop_body ascii_only ascii_only two_missing_row initial
  = (inr tt, State [fieldnames] 0 0 [ utf8 "⚠️  跳过行 T006: 'name'" ])
  /\ two_missing_row !! py "entity_id" = Some (text "T006").
Proof. split; vm_compute; reflexivity. Qed.

(** The warning for a row whose [entity_id] cell is [None]. *)
Example skipped_row_warning_none :
  stdout (snd (loop_body ascii_only ascii_only
                 (<[py "entity_id" := PyNone]> two_missing_row) initial))
  = [ utf8 "⚠️  跳过行 None: 'name'" ].
Proof. vm_compute. reflexivity. Qed.

Lemma schema_type_is_constant_witness :
  Forall (fun cells =>
            csv_field cells (py "schema_type")
            = Some (py "Terrorist Organization"))
         (tail (outfile (snd (convert_terrorist_csv ascii_only ascii_only
                                [scenario_row; no_id_row; padded_row])))).
Proof.
  apply (proj1 (schema_type_is_constant ascii_only ascii_only
                  [scenario_row; no_id_row; padded_row])).
Defined.

Lemma sentinel_comparison_is_exact_witness :
  (null_unreviewed ascii_only (py "published_date") near_sentinel_row initial
   = (inr near_sentinel_row, initial)
   /\ validate_date ascii_only ascii_only (py "published_date")
        near_sentinel_row initial
      = (inr (<[py "published_date" := PyNone]> near_sentinel_row),
         State (outfile initial) (converted_rows initial)
               (fixed_dates initial + 1) (stdout initial)))
  /\ (null_unreviewed ascii_only (py "published_date") scenario_row initial
      = (inr (<[py "published_date" := PyNone]> scenario_row), initial)
      /\ validate_date ascii_only ascii_only (py "published_date")
           (<[py "published_date" := PyNone]> scenario_row) initial
         = (inr (<[py "published_date" := PyNone]> scenario_row), initial)).
Proof.
  apply (sentinel_comparison_is_exact ascii_only ascii_only
           (py "published_date") near_sentinel_row scenario_row
           (py " Not yet reviewed ") initial).
  - vm_compute. reflexivity.
  - intros H. vm_compute in H. discriminate.
  - left. vm_compute. reflexivity.
  - vm_compute. reflexivity.
Defined.

(** The sentinel in lower case is left alone by lines 71-75 and counted
    by the format check, like the padded one. *)
Example lower_case_sentinel_is_counted :
  (let r := null_unreviewed ascii_only (py "updated_date")
              near_sentinel_row initial in
   match fst r with
   | inr d => d !! py "updated_date"
   | inl _ => None
   end = Some (text "not yet reviewed")
   /\ snd r = initial)
  /\ (let r := validate_date ascii_only ascii_only (py "updated_date")
                 near_sentinel_row initial in
      match fst r with
      | inr d => d !! py "updated_date"
      | inl _ => None
      end = Some PyNone
      /\ snd r = State [fieldnames] 0 1 []).
Proof. repeat split; vm_compute; reflexivity. Qed.

Lemma dates_never_drop_a_row_witness :
  exists cells n,
    loop_body ascii_only ascii_only
      (<[py "published_date" := PyNone]>
         (<[py "updated_date" := text "31/12/2020"]> scenario_row)) initial
    = (inr tt,
       State (outfile initial ++ [cells]) (converted_rows initial + 1) n
             (stdout initial)).
Proof.
  apply (proj1 (dates_never_drop_a_row ascii_only ascii_only scenario_row
                  initial)).
  vm_compute. reflexivity.
Defined.

(** ** The further theorems at sample rows *)

Lemma date_field_decided_by_shape_witness :
  exists cells st2,
    loop_body ascii_only ascii_only padded_row initial = (inr tt, st2)
    /\ outfile st2 = outfile initial ++ [cells]
    /\ csv_field cells (py "updated_date")
       = Some (if date_shape ascii_only
                    (strip ascii_only (py "2020-5-01"))
               then py "2020-5-01" else []).
Proof.
  apply (date_field_decided_by_shape ascii_only ascii_only padded_row
           (py "updated_date") (py "2020-5-01") initial).
  - vm_compute. reflexivity.
  - simpl. tauto.
  - vm_compute. reflexivity.
Defined.

Lemma ascii_date_passes_unchecked_witness :
  (exists cells st2,
     loop_body ascii_only ascii_only odd_date_row initial = (inr tt, st2)
     /\ outfile st2 = outfile initial ++ [cells]
     /\ csv_field cells (py "published_date")
        = Some [50; 48; 50; 48; 45; 49; 51; 45; 52; 53]%N
     /\ fixed_dates st2
        = fixed_dates initial
          + Z.b2z (malformed ascii_only ascii_only
                     (val odd_date_row (other_date (py "published_date")))))
  /\ (forall (d : dict) (st0 : state),
        d !! py "published_date"
        = Some (PyStr [50; 48; 50; 48; 45; 49; 51; 45; 52; 53]%N) ->
        null_unreviewed ascii_only (py "published_date") d st0 = (inr d, st0)
        /\ validate_date ascii_only ascii_only (py "published_date") d st0
           = (inr d, st0)).
Proof.
  apply (ascii_date_passes_unchecked ascii_only ascii_only
           odd_date_row (py "published_date")
           50 48 50 48 49 51 52 53 initial)%N.
  - vm_compute. reflexivity.
  - simpl. tauto.
  - repeat constructor.
  - vm_compute. reflexivity.
Defined.

(** The odd date is written and the counter stays at zero. *)
Example odd_date_run :
  convert_terrorist_csv ascii_only ascii_only [odd_date_row]
  = (inr tt,
     State [ fieldnames;
             [ py "Group F"; py "T007"; py "Terrorist Organization"; [];
               []; py "2020-13-45"; py "2020-05-01"; py "http://u" ] ]
           1 0 []).
Proof. vm_compute. reflexivity. Qed.

Lemma none_is_written_empty_witness :
  exists cells st2,
    loop_body ascii_only ascii_only short_row initial = (inr tt, st2)
    /\ outfile st2 = outfile initial ++ [cells]
    /\ csv_field cells (target_column (py "published_date")) = Some []
    /\ fixed_dates st2
       = fixed_dates initial
         + counted_elsewhere ascii_only ascii_only short_row
             (py "published_date").
Proof.
  apply (none_is_written_empty ascii_only ascii_only short_row
           (py "published_date") initial).
  - vm_compute. reflexivity.
  - simpl. tauto.
  - vm_compute. reflexivity.
Defined.

(** The short line is written with five empty fields and nothing is
    counted. *)
Example short_row_run :
  convert_terrorist_csv ascii_only ascii_only [short_row]
  = (inr tt,
     State [ fieldnames;
             [ py "Group E"; py "T005"; py "Terrorist Organization"; [];
               []; []; []; [] ] ]
           1 0 []).
Proof. vm_compute. reflexivity. Qed.

Lemma try_block_raises_only_key_error_witness :
  State [fieldnames] 0 0 [] = initial
  /\ exists k, KeyError (py "name") = KeyError k
               /\ first_missing two_missing_row = Some k
               /\ In k source_keys /\ two_missing_row !! k = None.
Proof.
  apply (try_block_raises_only_key_error ascii_only ascii_only
           two_missing_row initial (State [fieldnames] 0 0 [])
           (KeyError (py "name"))).
  vm_compute. reflexivity.
Defined.

Lemma preview_shows_two_rows_witness :
  preview_loop 0
    [reread_scenario_row; reread_scenario_row; no_id_row] initial
  = (inr tt,
     printed (preview_output 0
                (firstn 2 [reread_scenario_row; reread_scenario_row; no_id_row]))
             initial)
  /\ length (preview_output 0
               (firstn 2 [reread_scenario_row; reread_scenario_row; no_id_row]))
     = (6 * Nat.min 2
              (length [reread_scenario_row; reread_scenario_row; no_id_row]))%nat.
Proof.
  apply (proj1 (proj2 (preview_shows_two_rows
                         [reread_scenario_row; reread_scenario_row; no_id_row]
                         initial))).
  repeat constructor.
Defined.

(** A call whose reader ends normally, and one whose reader raises after
    the same two rows. *)
Example call_runs :
  let ok := convert_terrorist_csv_call ascii_only ascii_only as_written
              true [no_id_row; padded_row] None initial in
  let ko := convert_terrorist_csv_call ascii_only ascii_only as_written
              true [no_id_row; padded_row] (Some (py "line contains NUL"))
              initial in
  fst ok = inr true
  /\ fst ko = inr false
  /\ outfile (snd ok) = outfile (snd ko)
  /\ outfile (snd ok)
     = [ fieldnames;
         [ py "Group B"; py "T002"; py "Terrorist Organization"; []; [];
           py " 2020-05-01 "; []; py "http://y" ] ]
  /\ last (stdout (snd ko)) = Some (utf8 "❌ 转换失败: line contains NUL")
  /\ nth_error (stdout (snd ok)) 5 = Some (utf8 "📊 成功转换 1 行")
  /\ nth_error (stdout (snd ok)) 9 = Some (utf8 "组织名称: Group B")
  /\ nth_error (stdout (snd ok)) 12 = Some (utf8 "发布日期:  2020-05-01 ")
  /\ length (stdout (snd ok)) = 18%nat.
Proof. repeat split; vm_compute; reflexivity. Qed.

(** A run of [main] on three rows: one warning, two rows written, one date
    counted, and the exit status 0; with no input file, the status 1. *)
Example main_run :
  let r := main ascii_only ascii_only as_written true
             [no_id_row; scenario_row; padded_row] None initial in
  fst r = inr 0
  /\ length (outfile (snd r)) = 3%nat
  /\ converted_rows (snd r) = 2
  /\ fixed_dates (snd r) = 1
  /\ length (stdout (snd r)) = 29%nat
  /\ fst (main ascii_only ascii_only as_written true
            [no_id_row; scenario_row; padded_row] (Some (py "boom")) initial)
     = inr 1
  /\ fst (main ascii_only ascii_only as_written false [] None initial)
     = inr 1.
Proof. repeat split; vm_compute; reflexivity. Qed.

(** The prefix of the warning, read off line 88. *)
Example warning_prefix_text : utf8 "⚠️  跳过行 " = warning_prefix.
Proof. vm_compute. reflexivity. Qed.
